(** * Superstore dashboard: the filter / period / KPI pipeline of [app.py]

    The Streamlit script is a straight-line program over a pandas frame.
    It is embedded here as pure functions over a list of rows:

    - the scalar preprocessing of [load_data] (the "Margin Rate" column) is
      modelled on IEEE binary64, through the executable specification of
      floating-point numbers of the Standard Library ([SpecFloat]), because
      that code is about infinities and NaN;
    - the aggregation pipeline (sums, means, ratios) is modelled on exact
      rationals [Q]: the order in which pandas adds up a column is not fixed
      by the script, so a sum has no bit-exact value to speak of;
    - dates are day numbers in [Z]; a missing timestamp (NaT) is [None];
    - [st.warning] appends to a list of messages carried by the state;
    - an uncaught Python exception is [None] of the script's result. *)

From Stdlib Require Import ZArith QArith List String Bool Lia.
From Stdlib Require Import Permutation Sorted OrdersEx.
From Stdlib Require Import Floats.SpecFloat.
From Stdlib Require Import Qround Qabs DecimalString Lqa.
Import ListNotations.

(* ------------------------------------------------------------------ *)
(** ** Numbers the script computes with *)

(** [calc_percentage_change] and the ratios of [compute_kpis] are duck-typed
    in the source: they run on Python ints, on numpy floats, on whatever
    supports [==], [-], [/] and [*].  [Number] is that interface. *)
Class Number (A : Type) := {
  num_zero : A;                  (* the literal [0] *)
  num_hundred : A;               (* the literal [100] *)
  num_eq_zero : A -> bool;       (* [x == 0] *)
  num_sub : A -> A -> A;
  num_div : A -> A -> A;
  num_mul : A -> A -> A
}.

(** app.py, [calc_percentage_change]:
<<
    if past == 0:
        return 0
    return ((current - past) / past) * 100
>> *)
Definition calc_percentage_change {A} `{Number A} (current past : A) : A :=
  if num_eq_zero past then num_zero
  else num_mul (num_div (num_sub current past) past) num_hundred.

#[export] Instance Number_Q : Number Q := {
  num_zero := 0%Q;
  num_hundred := 100%Q;
  num_eq_zero := fun x => Qeq_bool x 0;
  num_sub := Qminus;
  num_div := Qdiv;
  num_mul := Qmult
}.

(** IEEE 754 binary64, the [float64] of numpy and the [float] of Python. *)
Module F64.

Definition prec : Z := 53.
Definition emax : Z := 1024.

Definition float64 := spec_float.

Definition pzero : float64 := S754_zero false.

(** An integer literal read as a double (exact below 2^53). *)
Definition of_Z (z : Z) : float64 := binary_normalize prec emax z 0 false.

Definition fsub : float64 -> float64 -> float64 := SFsub prec emax.
Definition fdiv : float64 -> float64 -> float64 := SFdiv prec emax.
Definition fmul : float64 -> float64 -> float64 := SFmul prec emax.

(** [x == y] on doubles: [-0.0 == 0.0], and NaN equals nothing. *)
Definition feqb : float64 -> float64 -> bool := SFeqb.

Definition is_nan (x : float64) : bool :=
  match x with S754_nan => true | _ => false end.

Definition is_inf (x : float64) : bool :=
  match x with S754_infinity _ => true | _ => false end.

Definition is_finite (x : float64) : bool :=
  match x with S754_zero _ | S754_finite _ _ _ => true | _ => false end.

(** [Series.replace([float("inf"), -float("inf")], 0)], on one cell. *)
Definition replace_inf (x : float64) : float64 :=
  if is_inf x then pzero else x.

(** [Series.fillna(0)], on one cell. *)
Definition fillna (x : float64) : float64 :=
  if is_nan x then pzero else x.

(** app.py, [load_data], one cell of the "Margin Rate" column:
<<
  df_orders["Margin Rate"] =
    (df_orders["Profit"] / df_orders["Sales"]).replace([inf, -inf], 0) * 100
  df_orders["Margin Rate"].fillna(0, inplace=True)
>>
    The in-place [fillna] on the selected column is taken to reach the
    frame, as it does in the pandas releases that have no copy-on-write. *)
Definition margin_rate (profit sales : float64) : float64 :=
  fillna (fmul (replace_inf (fdiv profit sales)) (of_Z 100)).

(** The largest power of two a double holds. *)
Definition two_pow_1023 : float64 := of_Z (2 ^ 1023).

#[export] Instance Number_float64 : Number float64 := {
  num_zero := pzero;
  num_hundred := of_Z 100;
  num_eq_zero := fun x => feqb x pzero;
  num_sub := fsub;
  num_div := fdiv;
  num_mul := fmul
}.

End F64.

(* ------------------------------------------------------------------ *)
(** ** The data frame *)

Module Dashboard.

Open Scope Z_scope.

(** One line of the "Orders" sheet after [load_data].  Only the columns the
    script reads are kept.  "Order ID" may be a missing cell ([None]), which
    [nunique] skips; "Shipment Time" is missing when "Ship Date" did not
    parse. *)
Record row := {
  order_id : option string;
  order_date : Z;
  region : string;
  state : string;
  category : string;
  sub_category : string;
  segment : string;
  product_name : string;
  sales : Q;
  profit : Q;
  quantity : Z;
  margin_rate : Q;
  shipment_time : option Z
}.

Definition frame := list row.

(** [df.empty] *)
Definition empty (df : frame) : bool :=
  match df with [] => true | _ :: _ => false end.

(** [Series.dropna()] *)
Fixpoint dropna {A} (col : list (option A)) : list A :=
  match col with
  | [] => []
  | Some x :: rest => x :: dropna rest
  | None :: rest => dropna rest
  end.

(** A timestamp or NaT.  Every comparison with NaT is false. *)
Definition date := option Z.

Definition date_leb (a b : date) : bool :=
  match a, b with Some x, Some y => x <=? y | _, _ => false end.

Definition date_ltb (a b : date) : bool :=
  match a, b with Some x, Some y => x <? y | _, _ => false end.

(** [df["Order Date"].min()] and [.max()]: NaT on an empty frame. *)
Definition order_date_min (df : frame) : date :=
  match df with
  | [] => None
  | r :: rest => Some (fold_left Z.min (map order_date rest) (order_date r))
  end.

Definition order_date_max (df : frame) : date :=
  match df with
  | [] => None
  | r :: rest => Some (fold_left Z.max (map order_date rest) (order_date r))
  end.

(** [df[(df["Order Date"] >= lo) & (df["Order Date"] <= hi)]] *)
Definition between (lo hi : date) (df : frame) : frame :=
  filter (fun r => date_leb lo (Some (order_date r))
                   && date_leb (Some (order_date r)) hi) df.

(* ---------------------------------------------------------------- *)
(** ** Filters section (app.py, lines 135-198) *)

(** What the widgets of the popover hand back on one run of the script:
    five [st.selectbox] values and two [st.date_input] values. *)
Record widgets := {
  selected_region : string;
  selected_state : string;
  selected_category : string;
  selected_subcat : string;
  selected_segment : string;
  from_date_input : Z;
  to_date_input : Z
}.

(** <<
    if selected != "All":
        df = df[df[col] == selected]
    >> *)
Definition selectbox_filter (col : row -> string) (selected : string)
           (df : frame) : frame :=
  if String.eqb selected "All" then df
  else filter (fun r => String.eqb (col r) selected) df.

(** The five categorical filters, in the order of the script. *)
Definition apply_selectboxes (w : widgets) (df : frame) : frame :=
  let df := selectbox_filter region (selected_region w) df in
  let df := selectbox_filter state (selected_state w) df in
  let df := selectbox_filter category (selected_category w) df in
  let df := selectbox_filter sub_category (selected_subcat w) df in
  selectbox_filter segment (selected_segment w) df.

(** What a select box offers: "All", or a value of the column in the frame
    filtered so far (the order of the options is not modelled). *)
Definition offered (col : row -> string) (df : frame) (v : string) : Prop :=
  v = "All"%string \/ In v (map col df).

(** The selections a user can reach through the cascaded select boxes. *)
Definition reachable (w : widgets) (df : frame) : Prop :=
  let d1 := selectbox_filter region (selected_region w) df in
  let d2 := selectbox_filter state (selected_state w) d1 in
  let d3 := selectbox_filter category (selected_category w) d2 in
  let d4 := selectbox_filter sub_category (selected_subcat w) d3 in
  offered region df (selected_region w) /\
  offered state d1 (selected_state w) /\
  offered category d2 (selected_category w) /\
  offered sub_category d3 (selected_subcat w) /\
  offered segment d4 (selected_segment w).

Definition warn_reset_full : string :=
  "No data available for the selected filters. Resetting to full dataset.".
Definition warn_invalid_range : string :=
  "Invalid date range selected. Resetting to default range.".
Definition warn_show_full : string :=
  "No data available for the selected filters. Showing full dataset.".
Definition warn_no_past : string :=
  "No change detected in KPI values compared to the past period, or no past data available, resulting in a 0.0% change.".

(** The script's variables when the popover block is left. *)
Record filter_state := {
  df_filtered : frame;
  from_date : date;
  to_date : date;
  warnings : list string
}.

(** Lines 176-179: the frame the date filter will run on. *)
Definition working_frame (df_original : frame) (w : widgets) : frame :=
  let df := apply_selectboxes w df_original in
  if empty df then df_original else df.

(** Lines 139-198. *)
Definition filters_section (df_original : frame) (w : widgets)
  : filter_state :=
  let df := apply_selectboxes w df_original in
  let '(df, log) :=
    if empty df then (df_original, [warn_reset_full]) else (df, []) in
  let min_date := order_date_min df in
  let max_date := order_date_max df in
  let '(from, to, log) :=
    if from_date_input w >? to_date_input w
    then (min_date, max_date, log ++ [warn_invalid_range])
    else (Some (from_date_input w), Some (to_date_input w), log) in
  {| df_filtered := between from to df;
     from_date := from;
     to_date := to;
     warnings := log |}.

(** The filters alone, with neither fallback nor correction: the selected
    categories, then the inclusive date range. *)
Definition apply_filters (w : widgets) (lo hi : date) (df : frame) : frame :=
  between lo hi (apply_selectboxes w df).

(** Lines 217-220: the second fallback, after the popover. *)
Definition filter_engine (df_original : frame) (w : widgets)
  : filter_state :=
  let st := filters_section df_original w in
  if empty (df_filtered st)
  then {| df_filtered := df_original;
          from_date := from_date st;
          to_date := to_date st;
          warnings := warnings st ++ [warn_show_full] |}
  else st.

(* ---------------------------------------------------------------- *)
(** ** Period resolver (lines 223-258) *)

(** [(to_date - from_date).days] *)
Definition date_range_days (from to : Z) : Z := to - from.

Definition past_start_date (from to : Z) : Z := from - date_range_days from to.
Definition past_end_date (from to : Z) : Z := to - date_range_days from to.

(** The test of line 239. *)
Definition past_out_of_range (df_original : frame) (past_start past_end : Z)
  : bool :=
  date_ltb (Some past_start) (order_date_min df_original)
  || date_ltb (order_date_max df_original) (Some past_end).

(** Lines 235-258. *)
Definition past_frame (df_original : frame) (w : widgets)
           (past_start past_end : Z) : frame :=
  let df_past :=
    if past_out_of_range df_original past_start past_end then []
    else between (Some past_start) (Some past_end) df_original in
  apply_selectboxes w df_past.

(* ---------------------------------------------------------------- *)
(** ** KPI aggregator (lines 203-215, 262-285) *)

Record kpis := {
  total_sales : Q;
  avg_order_value : Q;
  total_orders : Z;
  total_profit : Q;
  profit_margin : Q;
  avg_shipment_time : Q
}.

Definition zero_kpis : kpis :=
  {| total_sales := 0; avg_order_value := 0; total_orders := 0;
     total_profit := 0; profit_margin := 0; avg_shipment_time := 0 |}.

(** [Series.sum()] *)
Definition Qsum (col : list Q) : Q := fold_left Qplus col 0%Q.

(** [Series.nunique()]: the number of distinct cells that are not missing. *)
Definition nunique (col : list (option string)) : Z :=
  Z.of_nat (List.length (nodup string_dec (dropna col))).

(** [Series.mean()]: missing cells are skipped; NaN when none is left. *)
Definition mean (col : list (option Z)) : option Q :=
  match dropna col with
  | [] => None
  | xs => Some (inject_Z (fold_left Z.add xs 0%Z)
                / inject_Z (Z.of_nat (List.length xs)))%Q
  end.

Definition Qltb (x y : Q) : bool := negb (Qle_bool y x).

Definition compute_kpis (df : frame) : kpis :=
  if empty df then zero_kpis
  else
    let total_sales := Qsum (map sales df) in
    let total_profit := Qsum (map profit df) in
    let total_orders := nunique (map order_id df) in
    let avg_order_value :=
      if 0 <? total_orders then (total_sales / inject_Z total_orders)%Q
      else 0%Q in
    let profit_margin :=
      if Qltb 0 total_sales then (total_profit / total_sales * 100)%Q
      else 0%Q in
    let avg_shipment_time :=
      match mean (map shipment_time df) with
      | Some m => m
      | None => 0%Q
      end in
    {| total_sales := total_sales;
       avg_order_value := avg_order_value;
       total_orders := total_orders;
       total_profit := total_profit;
       profit_margin := profit_margin;
       avg_shipment_time := avg_shipment_time |}.

Record changes := {
  sales_change : Q;
  avg_order_value_change : Q;
  orders_change : Q;
  profit_change : Q;
  profit_margin_change : Q;
  shipment_time_change : Q
}.

(** Lines 280-285. *)
Definition percentage_changes (cur past : kpis) : changes :=
  {| sales_change :=
       calc_percentage_change (total_sales cur) (total_sales past);
     avg_order_value_change :=
       calc_percentage_change (avg_order_value cur) (avg_order_value past);
     orders_change :=
       calc_percentage_change (inject_Z (total_orders cur))
                              (inject_Z (total_orders past));
     profit_change :=
       calc_percentage_change (total_profit cur) (total_profit past);
     profit_margin_change :=
       calc_percentage_change (profit_margin cur) (profit_margin past);
     shipment_time_change :=
       calc_percentage_change (avg_shipment_time cur)
                              (avg_shipment_time past) |}.

(* ---------------------------------------------------------------- *)
(** ** One run of the script, up to the KPI row (lines 139-324) *)

Record view := {
  v_filtered : frame;            (* [df_filtered], after line 220 *)
  v_from : Z;                    (* [from_date], after line 223 *)
  v_to : Z;
  v_days : Z;                    (* [date_range_days] *)
  v_past_start : Z;
  v_past_end : Z;
  v_current : frame;             (* [df_current] *)
  v_past : frame;                (* [df_past], after line 258 *)
  v_past_data_available : bool;
  v_kpis : kpis;
  v_past_kpis : kpis;
  v_changes : changes;
  v_warnings : list string
}.

(** With NaT as a bound (an empty sheet and a reversed date range),
    [(to_date - from_date).days] is NaN and [timedelta(days=NaN)] raises:
    the run stops, [None]. *)
Definition dashboard (df_original : frame) (w : widgets) : option view :=
  let st := filter_engine df_original w in
  match from_date st, to_date st with
  | Some from, Some to =>
    let past_start := past_start_date from to in
    let past_end := past_end_date from to in
    let df_current := between (Some from) (Some to) (df_filtered st) in
    let df_past := past_frame df_original w past_start past_end in
    let past_data_available := negb (empty df_past) in
    let cur := compute_kpis df_current in
    let past :=
      if past_data_available then compute_kpis df_past else zero_kpis in
    Some {| v_filtered := df_filtered st;
            v_from := from;
            v_to := to;
            v_days := date_range_days from to;
            v_past_start := past_start;
            v_past_end := past_end;
            v_current := df_current;
            v_past := df_past;
            v_past_data_available := past_data_available;
            v_kpis := cur;
            v_past_kpis := past;
            v_changes := percentage_changes cur past;
            v_warnings :=
              if past_data_available then warnings st
              else warnings st ++ [warn_no_past] |}
  | _, _ => None
  end.

(* ---------------------------------------------------------------- *)
(** ** Top 10 products (lines 389-391) *)

(** The radio button "Select KPI to Display". *)
Inductive selected_kpi := Sales | Profit | Quantity | MarginRate.

(** [df[selected_kpi]], one cell. *)
Definition kpi_value (k : selected_kpi) (r : row) : Q :=
  match k with
  | Sales => sales r
  | Profit => profit r
  | Quantity => inject_Z (quantity r)
  | MarginRate => margin_rate r
  end.

(** A two-column frame: product name, summed metric. *)
Definition table := list (string * Q).

(** One step of the group-by: the running sum of the group of [name] grows
    by [v]; a new group takes its place in the order of the keys
    ([groupby] sorts its keys). *)
Fixpoint accumulate (name : string) (v : Q) (groups : table) : table :=
  match groups with
  | [] => [(name, v)]
  | (name', acc) :: rest =>
    match String_as_OT.compare name name' with
    | Eq => (name', (acc + v)%Q) :: rest
    | Lt => (name, v) :: groups
    | Gt => (name', acc) :: accumulate name v rest
    end
  end.

(** [df_filtered.groupby("Product Name")[[selected_kpi]].sum().reset_index()] *)
Definition df_product_sales (k : selected_kpi) (df : frame) : table :=
  fold_left (fun groups r => accumulate (product_name r) (kpi_value k r) groups)
            df [].

(** [.sort_values(by=selected_kpi, ascending=False)] promises a rearrangement
    of the rows in which the metric never increases.  The script leaves
    [kind] at its default ("quicksort"), which pandas documents as not
    stable: what happens to rows with equal sums is not fixed by the script.
    The sort is therefore a parameter of [df_top10], with that contract. *)
Definition descending (t : table) : Prop :=
  StronglySorted (fun a b => (snd b <= snd a)%Q) t.

Definition sorts_descending (sort_values : table -> table) : Prop :=
  forall t, Permutation t (sort_values t) /\ descending (sort_values t).

(** [df_product_sales.sort_values(by=selected_kpi, ascending=False).head(10)] *)
Definition df_top10 (sort_values : table -> table) (k : selected_kpi)
           (df : frame) : table :=
  firstn 10 (sort_values (df_product_sales k df)).

(** Two sorts that meet the contract.  Both are insertion sorts; they differ
    only on rows with equal sums: the first keeps them in the order of the
    input (what [kind="stable"] would do), the second reverses them. *)
Fixpoint insert_desc (keep_ties : bool) (x : string * Q) (t : table) : table :=
  match t with
  | [] => [x]
  | y :: rest =>
    if (if keep_ties then Qle_bool (snd y) (snd x) else Qltb (snd y) (snd x))
    then x :: t
    else y :: insert_desc keep_ties x rest
  end.

Definition insertion_sort_desc (keep_ties : bool) (t : table) : table :=
  fold_right (insert_desc keep_ties) [] t.

Definition stable_sort_desc : table -> table := insertion_sort_desc true.

(** The rows of a table whose sum is [q]. *)
Definition has_sum (q : Q) (x : string * Q) : bool := Qeq_bool (snd x) q.

(** "Ties broken by original grouping iteration order": for every sum, the
    rows of [out] that carry it are, in that order, the first of the rows of
    [groups] that carry it. *)
Definition ties_in_group_order (groups out : table) : Prop :=
  forall q, exists rest,
      filter (has_sum q) groups = filter (has_sum q) out ++ rest.

(** The sum of the metric over the rows of one product. *)
Definition product_total (k : selected_kpi) (name : string) (df : frame) : Q :=
  Qsum (map (kpi_value k)
            (filter (fun r => String.eqb (product_name r) name) df)).

(** The number of distinct product names in a frame. *)
Definition distinct_products (df : frame) : nat :=
  List.length (nodup string_dec (map product_name df)).

(* ---------------------------------------------------------------- *)
(** ** Vocabulary of the statements *)

(** Day [d] lies in the inclusive range [lo .. hi], the test of [between]. *)
Definition in_window (lo hi d : Z) : Prop := lo <= d <= hi.

(** Two inclusive ranges with no day in common. *)
Definition shares_no_day (lo1 hi1 lo2 hi2 : Z) : Prop :=
  forall d, ~ (in_window lo1 hi1 d /\ in_window lo2 hi2 d).

(** The row passes one select box. *)
Definition passes (col : row -> string) (selected : string) (r : row) : bool :=
  String.eqb selected "All" || String.eqb (col r) selected.

(** The row passes the five select boxes. *)
Definition row_matches (w : widgets) (r : row) : bool :=
  passes region (selected_region w) r
  && passes state (selected_state w) r
  && passes category (selected_category w) r
  && passes sub_category (selected_subcat w) r
  && passes segment (selected_segment w) r.

(** The test of [between] on one row. *)
Definition row_in_range (lo hi : date) (r : row) : bool :=
  date_leb lo (Some (order_date r)) && date_leb (Some (order_date r)) hi.

(** Every change reported as exactly 0. *)
Definition zero_changes : changes :=
  {| sales_change := 0; avg_order_value_change := 0; orders_change := 0;
     profit_change := 0; profit_margin_change := 0;
     shipment_time_change := 0 |}.


(** The keys of a group-by come in ascending order. *)
Definition key_lt (a b : string * Q) : Prop := String_as_OT.lt (fst a) (fst b).

(** Sample rows. *)
Definition sample_row (id : string) (day : Z) (reg : string) (prod : string)
           (s p : Q) : row :=
  {| order_id := Some id; order_date := day; region := reg;
     state := "Ohio"; category := "Furniture"; sub_category := "Chairs";
     segment := "Consumer"; product_name := prod;
     sales := s; profit := p; quantity := 1; margin_rate := 0;
     shipment_time := Some 2 |}.

Definition all_selected (from to : Z) : widgets :=
  {| selected_region := "All"; selected_state := "All";
     selected_category := "All"; selected_subcat := "All";
     selected_segment := "All";
     from_date_input := from; to_date_input := to |}.

Definition region_selected (reg : string) (from to : Z) : widgets :=
  {| selected_region := reg; selected_state := "All";
     selected_category := "All"; selected_subcat := "All";
     selected_segment := "All";
     from_date_input := from; to_date_input := to |}.

(** Three orders: one in the East on day 1, two in the West on days 5, 9. *)
Definition three_orders : frame :=
  [ sample_row "CA-1" 1 "East" "Desk" 100 10;
    sample_row "CA-2" 5 "West" "Lamp" 40 4;
    sample_row "CA-3" 9 "West" "Sofa" 60 (-6) ].


End Dashboard.

(* ------------------------------------------------------------------ *)
(** ** The other views of the script: map, time series, KPI boxes *)

Module Views.

Import Dashboard.
Open Scope Z_scope.

(** [df.groupby(key)[[selected_kpi]].sum().reset_index()], on any key
    column; [df_product_sales] is the instance of "Product Name". *)
Definition groupby_sum (key : row -> string) (k : selected_kpi) (df : frame)
  : table :=
  fold_left (fun groups r => accumulate (key r) (kpi_value k r) groups) df [].

(** The same row, filed under [key] as its product name. *)
Definition keyed_by (key : row -> string) (r : row) : row :=
  {| order_id := order_id r; order_date := order_date r; region := region r;
     state := state r; category := category r;
     sub_category := sub_category r; segment := segment r;
     product_name := key r;
     sales := sales r; profit := profit r; quantity := quantity r;
     margin_rate := margin_rate r; shipment_time := shipment_time r |}.

(** Line 418: [df_filtered.groupby("State")[[selected_kpi]].sum()]. *)
Definition df_geo (k : selected_kpi) (df : frame) : table :=
  groupby_sum state k df.

(** The reference sheet read on line 421, cut to its columns "state" and
    "code". *)
Definition state_abbr_table := list (string * string).

(** Line 422: [df_geo.merge(state_abbr, left_on="State", right_on="state",
    how="left")].  A left merge keeps the order of the left rows; a left row
    comes once for each reference row of its state, and once with a missing
    code when there is none. *)
Definition merge_left (geo : table) (state_abbr : state_abbr_table)
  : list (string * Q * option string) :=
  flat_map
    (fun g =>
       match filter (fun e => String.eqb (fst e) (fst g)) state_abbr with
       | [] => [(fst g, snd g, None)]
       | matches => map (fun e => (fst g, snd g, Some (snd e))) matches
       end)
    geo.

(** The sum of the metric over the rows of one value of a key column. *)
Definition key_total (key : row -> string) (k : selected_kpi) (name : string)
           (df : frame) : Q :=
  Qsum (map (kpi_value k) (filter (fun r => String.eqb (key r) name) df)).

(** *** Time series (lines 346-349)

    The calendar is a parameter: [month_of d] numbers the month of day [d]. *)

(** The sum of the metric over the rows of one month. *)
Definition month_total (month_of : Z -> Z) (k : selected_kpi) (m : Z)
           (df : frame) : Q :=
  Qsum (map (kpi_value k)
            (filter (fun r => month_of (order_date r) =? m) df)).

(** The months from [m0] to [m1], both included. *)
Definition month_range (m0 m1 : Z) : list Z :=
  map (fun i => m0 + Z.of_nat i) (seq 0 (Z.to_nat (m1 - m0 + 1))).

(** [df_filtered.groupby(pd.Grouper(key="Order Date", freq="M"))
    [[selected_kpi]].sum().reset_index()]: one bin for every month from the
    month of the earliest order to the month of the latest, with or without
    orders; the sum of an empty bin is 0. *)
Definition df_time (month_of : Z -> Z) (k : selected_kpi) (df : frame)
  : list (Z * Q) :=
  match order_date_min df, order_date_max df with
  | Some lo, Some hi =>
    map (fun m => (m, month_total month_of k m df))
        (month_range (month_of lo) (month_of hi))
  | _, _ => []
  end.

(** [Series.rolling(window=3).mean()]: missing until three values are in
    the window. *)
Fixpoint rolling_mean3 (before_last last : option Q) (col : list Q)
  : list (option Q) :=
  match col with
  | [] => []
  | x :: rest =>
    match before_last, last with
    | Some a, Some b => Some ((a + b + x) / 3)%Q
    | _, _ => None
    end :: rolling_mean3 last (Some x) rest
  end.

(** Line 349: [df_time["Moving Avg"]]. *)
Definition moving_avg (month_of : Z -> Z) (k : selected_kpi) (df : frame)
  : list (option Q) :=
  rolling_mean3 None None (map snd (df_time month_of k df)).

(** A toy calendar of thirty-day months. *)
Definition thirty_day_month (d : Z) : Z := d / 30.

(** *** KPI boxes (lines 72-79, 288-295) *)

(** Rounding to the nearest integer, ties to the even one: what [:.1f] does
    to the last digit it keeps. *)
Definition round_half_even (q : Q) : Z :=
  let f := Qfloor q in
  match (q - inject_Z f ?= 1 # 2)%Q with
  | Lt => f
  | Gt => f + 1
  | Eq => if Z.even f then f else f + 1
  end.

(** The decimal digits of a natural number. *)
Definition digits (n : Z) : string :=
  NilZero.string_of_uint (N.to_uint (Z.to_N n)).

(** [s] with zeros in front up to [width] characters. *)
Fixpoint pad_zeros (width : nat) (s : string) : string :=
  match width with
  | O => s
  | S w =>
    if (String.length s <? width)%nat then pad_zeros w ("0" ++ s)%string
    else s
  end.

(** [f"{q:.{decimals}f}"] *)
Definition fixed (decimals : nat) (q : Q) : string :=
  let scale := 10 ^ Z.of_nat decimals in
  let n := round_half_even (Qabs q * inject_Z scale) in
  let body :=
    match decimals with
    | O => digits n
    | _ => (digits (n / scale) ++ "."
            ++ pad_zeros decimals (digits (n mod scale)))%string
    end in
  if Qltb q 0 then ("-" ++ body)%string else body.


(** app.py, [format_change]. *)
Definition format_change (value : Q) : string :=
  if Qeq_bool value 0
  then "<span style='color:gray; font-weight:bold;'>➖ 0.0%</span>"%string
  else
    let color := (if Qltb 0 value then "green" else "red")%string in
    let symbol := (if Qltb 0 value then "▲" else "▼")%string in
    ("<span style='color:" ++ color ++ "; font-weight:bold;'> "
     ++ symbol ++ " " ++ fixed 1 (Qabs value) ++ "%</span>")%string.

End Views.

(* ================================================================== *)
(** * Percentage change *)

Import F64.

Lemma calc_percentage_change_Q_zero (current past : Q) :
  (past == 0)%Q -> calc_percentage_change current past = 0%Q.
Proof.
  intros Hp. unfold calc_percentage_change. cbn.
  apply Qeq_bool_iff in Hp. now rewrite Hp.
Qed.

Lemma calc_percentage_change_Q_ratio (current past : Q) :
  ~ (past == 0)%Q ->
  calc_percentage_change current past = ((current - past) / past * 100)%Q.
Proof.
  intros Hp. unfold calc_percentage_change. cbn.
  destruct (Qeq_bool past 0) eqn:E; [|reflexivity].
  apply Qeq_bool_iff in E. contradiction.
Qed.


(** C5: [calc_percentage_change current past] is 0 whenever [past == 0],
    whatever [current] is (0 included), and [(current - past) / past * 100]
    otherwise, on exact rationals and on doubles alike; on 110 against 100 it
    is 10, on 90 against 100 it is -10, exactly so in double arithmetic too. *)
Theorem C5_calc_percentage_change :
  (forall current past : Q,
      ((past == 0)%Q -> calc_percentage_change current past = 0%Q)
      /\ (~ (past == 0)%Q ->
          calc_percentage_change current past
          = ((current - past) / past * 100)%Q))
  /\ (forall current past : float64,
         (feqb past pzero = true -> calc_percentage_change current past = pzero)
         /\ (feqb past pzero = false ->
             calc_percentage_change current past
             = fmul (fdiv (fsub current past) past) (of_Z 100)))
  /\ calc_percentage_change 0%Q 0%Q = 0%Q
  /\ (calc_percentage_change 110 100 == 10)%Q
  /\ (calc_percentage_change 90 100 == -10)%Q
  /\ calc_percentage_change (of_Z 110) (of_Z 100) = of_Z 10
  /\ calc_percentage_change (of_Z 90) (of_Z 100) = of_Z (-10).
Proof.
  split; [|split].
  - intros current past. split.
    + apply calc_percentage_change_Q_zero.
    + apply calc_percentage_change_Q_ratio.
  - intros current past. unfold calc_percentage_change. cbn.
    split; intros ->; reflexivity.
  - split; [reflexivity|].
    split; [vm_compute; reflexivity|].
    split; [vm_compute; reflexivity|].
    split; vm_compute; reflexivity.
Qed.

(** The change of 150 against a past value of 0 is reported as 0. *)
Lemma C5_calc_percentage_change_witness :
  calc_percentage_change 150%Q 0%Q = 0%Q
  /\ calc_percentage_change 150%Q 120%Q = ((150 - 120) / 120 * 100)%Q.
Proof.
  destruct C5_calc_percentage_change as [HQ _].
  destruct (HQ 150%Q 0%Q) as [Hz _].
  destruct (HQ 150%Q 120%Q) as [_ Hr].
  split.
  - apply Hz. reflexivity.
  - apply Hr. intro H. discriminate H.
Defined.

(* ================================================================== *)
(** * Margin rate *)

Lemma margin_rate_of_ratio (profit sales : float64) :
  margin_rate profit sales
  = match fdiv profit sales with
    | S754_nan | S754_infinity _ => pzero
    | r => fillna (fmul r (of_Z 100))
    end.
Proof.
  unfold margin_rate, replace_inf.
  destruct (fdiv profit sales); reflexivity.
Qed.

Lemma fdiv_by_zero (profit : float64) (s : bool) :
  is_finite (fdiv profit (S754_zero s)) = false.
Proof. destruct profit; reflexivity. Qed.

(** A finite ratio whose hundredfold overflows: the cell holds +Infinity. *)
Lemma C7_margin_rate_overflow :
  valid_binary prec emax two_pow_1023 = true
  /\ valid_binary prec emax (of_Z 1) = true
  /\ margin_rate two_pow_1023 (of_Z 1) = S754_infinity false
  /\ ~ (forall profit sales : float64,
           is_finite (margin_rate profit sales) = true).
Proof.
  assert (E : margin_rate two_pow_1023 (of_Z 1) = S754_infinity false)
    by (vm_compute; reflexivity).
  split; [vm_compute; reflexivity|].
  split; [vm_compute; reflexivity|].
  split; [exact E|].
  intros H. specialize (H two_pow_1023 (of_Z 1)).
  rewrite E in H. discriminate H.
Qed.

(** C7 (as the code has it): the margin rate of a row is never NaN; it is 0
    whenever sales is 0 (of either sign) or the ratio profit / sales is not
    finite; it is finite unless the ratio is finite and its hundredfold
    overflows, and then it is that infinity; sales 0 with profit 50 gives 0. *)
Theorem C7_margin_rate (profit sales : float64) :
  is_nan (margin_rate profit sales) = false
  /\ (feqb sales pzero = true -> margin_rate profit sales = pzero)
  /\ (is_finite (fdiv profit sales) = false -> margin_rate profit sales = pzero)
  /\ is_finite (margin_rate profit sales)
     = negb (is_finite (fdiv profit sales)
             && is_inf (fmul (fdiv profit sales) (of_Z 100)))
  /\ (is_inf (margin_rate profit sales) = true ->
      margin_rate profit sales = fmul (fdiv profit sales) (of_Z 100))
  /\ margin_rate (of_Z 50) (of_Z 0) = pzero.
Proof.
  assert (Hnf : is_finite (fdiv profit sales) = false ->
                margin_rate profit sales = pzero).
  { intros H. rewrite margin_rate_of_ratio.
    destruct (fdiv profit sales); try reflexivity; discriminate H. }
  split; [|split; [|split; [|split; [|split]]]].
  - unfold margin_rate, fillna.
    destruct (fmul (replace_inf (fdiv profit sales)) (of_Z 100)); reflexivity.
  - intros Hs. apply Hnf.
    destruct sales as [s|s| |s m e];
      [apply fdiv_by_zero | destruct s | | destruct s]; discriminate Hs.
  - exact Hnf.
  - rewrite margin_rate_of_ratio.
    destruct (fdiv profit sales) as [s| | |s m e]; try reflexivity.
    + destruct (fmul (S754_finite s m e) (of_Z 100)); reflexivity.
  - rewrite margin_rate_of_ratio.
    destruct (fdiv profit sales) as [s| | |s m e]; try discriminate.
    + destruct (fmul (S754_finite s m e) (of_Z 100)); try discriminate.
      reflexivity.
  - vm_compute. reflexivity.
Qed.

(** A row with sales 0 and profit 50. *)
Lemma C7_margin_rate_witness :
  feqb (of_Z 0) pzero = true /\ margin_rate (of_Z 50) (of_Z 0) = pzero.
Proof.
  split; [reflexivity|].
  destruct (C7_margin_rate (of_Z 50) (of_Z 0)) as (_ & H & _).
  apply H. reflexivity.
Defined.

(* ================================================================== *)
(** * Period resolver *)

Import Dashboard.
Open Scope Z_scope.

Lemma fold_min_spec (l : list Z) (a : Z) :
  fold_left Z.min l a <= a
  /\ (forall x, In x l -> fold_left Z.min l a <= x)
  /\ (fold_left Z.min l a = a \/ In (fold_left Z.min l a) l).
Proof.
  revert a. induction l as [|y l IH]; intros a; cbn.
  - split; [lia|]. split; [intros x []|now left].
  - destruct (IH (Z.min a y)) as (H1 & H2 & H3).
    split; [lia|]. split.
    + intros x [<-|Hx]; [lia|auto].
    + destruct H3 as [H3|H3]; [|right; right; exact H3].
      destruct (Z.min_spec a y) as [[_ E]|[_ E]]; rewrite E in H3;
        [left|right; left]; congruence.
Qed.

Lemma fold_max_spec (l : list Z) (a : Z) :
  a <= fold_left Z.max l a
  /\ (forall x, In x l -> x <= fold_left Z.max l a)
  /\ (fold_left Z.max l a = a \/ In (fold_left Z.max l a) l).
Proof.
  revert a. induction l as [|y l IH]; intros a; cbn.
  - split; [lia|]. split; [intros x []|now left].
  - destruct (IH (Z.max a y)) as (H1 & H2 & H3).
    split; [lia|]. split.
    + intros x [<-|Hx]; [lia|auto].
    + destruct H3 as [H3|H3]; [|right; right; exact H3].
      destruct (Z.max_spec a y) as [[_ E]|[_ E]]; rewrite E in H3;
        [right; left|left]; congruence.
Qed.

(** The earliest order date of a frame bounds every row from below. *)
Lemma order_date_min_le (df : frame) (lo : Z) (r : row) :
  order_date_min df = Some lo -> In r df -> lo <= order_date r.
Proof.
  destruct df as [|r0 rest]; [discriminate|].
  cbn. intros [= <-] Hr.
  destruct (fold_min_spec (map order_date rest) (order_date r0)) as (H1 & H2 & _).
  destruct Hr as [<-|Hr]; [exact H1|].
  apply H2. now apply in_map.
Qed.

Lemma order_date_max_ge (df : frame) (hi : Z) (r : row) :
  order_date_max df = Some hi -> In r df -> order_date r <= hi.
Proof.
  destruct df as [|r0 rest]; [discriminate|].
  cbn. intros [= <-] Hr.
  destruct (fold_max_spec (map order_date rest) (order_date r0)) as (H1 & H2 & _).
  destruct Hr as [<-|Hr]; [exact H1|].
  apply H2. now apply in_map.
Qed.

Lemma order_date_min_max (df : frame) (lo hi : Z) :
  order_date_min df = Some lo -> order_date_max df = Some hi -> lo <= hi.
Proof.
  destruct df as [|r0 rest]; [discriminate|].
  intros Hlo Hhi.
  pose proof (order_date_min_le _ _ _ Hlo (or_introl eq_refl)).
  pose proof (order_date_max_ge _ _ _ Hhi (or_introl eq_refl)). lia.
Qed.

Lemma order_date_min_defined (df : frame) :
  df <> [] -> exists lo hi,
    order_date_min df = Some lo /\ order_date_max df = Some hi.
Proof.
  destruct df as [|r rest]; [congruence|]. intros _. cbn. eauto.
Qed.

(** The date range the script works with is never reversed. *)
Lemma filters_section_ordered (df_original : frame) (w : widgets) (from to : Z) :
  from_date (filters_section df_original w) = Some from ->
  to_date (filters_section df_original w) = Some to ->
  from <= to.
Proof.
  unfold filters_section.
  destruct (empty (apply_selectboxes w df_original));
    destruct (from_date_input w >? to_date_input w) eqn:E; cbn;
    intros Hf Ht;
    try (eapply order_date_min_max; eassumption);
    injection Hf as <-; injection Ht as <-; lia.
Qed.

Lemma filter_engine_dates (df_original : frame) (w : widgets) :
  from_date (filter_engine df_original w)
  = from_date (filters_section df_original w)
  /\ to_date (filter_engine df_original w)
     = to_date (filters_section df_original w).
Proof.
  unfold filter_engine.
  destruct (empty (df_filtered (filters_section df_original w))); split;
    reflexivity.
Qed.

(** Unfolding of one successful run. *)
Lemma dashboard_inv (df_original : frame) (w : widgets) (v : view) :
  dashboard df_original w = Some v ->
  from_date (filters_section df_original w) = Some (v_from v)
  /\ to_date (filters_section df_original w) = Some (v_to v)
  /\ v_filtered v = df_filtered (filter_engine df_original w)
  /\ v_days v = date_range_days (v_from v) (v_to v)
  /\ v_past_start v = past_start_date (v_from v) (v_to v)
  /\ v_past_end v = past_end_date (v_from v) (v_to v)
  /\ v_current v = between (Some (v_from v)) (Some (v_to v)) (v_filtered v)
  /\ v_past v = past_frame df_original w (v_past_start v) (v_past_end v)
  /\ v_past_data_available v = negb (empty (v_past v))
  /\ v_kpis v = compute_kpis (v_current v)
  /\ v_past_kpis v
     = (if v_past_data_available v then compute_kpis (v_past v) else zero_kpis)
  /\ v_changes v = percentage_changes (v_kpis v) (v_past_kpis v)
  /\ v_warnings v
     = (if v_past_data_available v
        then warnings (filter_engine df_original w)
        else warnings (filter_engine df_original w) ++ [warn_no_past]).
Proof.
  unfold dashboard.
  destruct (filter_engine_dates df_original w) as [<- <-].
  destruct (from_date (filter_engine df_original w)) as [from|]; [|discriminate].
  destruct (to_date (filter_engine df_original w)) as [to|]; [|discriminate].
  intros [= <-]. cbn. repeat split; reflexivity.
Qed.

(** A run raises only on an empty sheet with a reversed date range. *)
Lemma dashboard_defined (df_original : frame) (w : widgets) :
  df_original <> [] \/ from_date_input w <= to_date_input w ->
  exists v, dashboard df_original w = Some v.
Proof.
  intros H. unfold dashboard.
  destruct (filter_engine_dates df_original w) as [-> ->].
  unfold filters_section.
  destruct (from_date_input w >? to_date_input w) eqn:E.
  - destruct H as [H|H]; [|lia].
    assert (Hw : working_frame df_original w <> []).
    { unfold working_frame.
      destruct (apply_selectboxes w df_original) eqn:Ea; cbn; congruence. }
    destruct (order_date_min_defined _ Hw) as (lo & hi & Hlo & Hhi).
    unfold working_frame in Hlo, Hhi.
    destruct (empty (apply_selectboxes w df_original)); cbn;
      rewrite Hlo, Hhi; eauto.
  - destruct (empty (apply_selectboxes w df_original)); cbn; eauto.
Qed.

(** The claim of C1 fails on the range of days 10 to 20: the past range ends
    on day 10, which is also the first day of the current range. *)
Lemma C1_past_period_shares_a_day :
  past_start_date 10 20 = 0 /\ past_end_date 10 20 = 10
  /\ ~ shares_no_day (past_start_date 10 20) (past_end_date 10 20) 10 20.
Proof.
  split; [reflexivity|]. split; [reflexivity|].
  intros H. apply (H 10). unfold in_window. cbn. lia.
Qed.

(** C1 (as the code has it): on every run that does not raise, the span is
    [to - from] days, the past range is [from - span .. to - span], it has
    the length of the current range and ends on the very day the current
    range starts: the two inclusive ranges have exactly that day in common. *)
Theorem C1_past_period (df_original : frame) (w : widgets) (v : view) :
  dashboard df_original w = Some v ->
  v_days v = v_to v - v_from v
  /\ v_past_start v = v_from v - v_days v
  /\ v_past_end v = v_to v - v_days v
  /\ v_past_end v - v_past_start v = v_to v - v_from v
  /\ v_past_end v = v_from v
  /\ v_from v <= v_to v
  /\ (forall d, in_window (v_past_start v) (v_past_end v) d
                /\ in_window (v_from v) (v_to v) d <-> d = v_from v).
Proof.
  intros Hrun.
  destruct (dashboard_inv _ _ _ Hrun) as (Hf & Ht & _ & Hd & Hps & Hpe & _).
  pose proof (filters_section_ordered _ _ _ _ Hf Ht) as Hle.
  rewrite Hd, Hps, Hpe.
  unfold past_start_date, past_end_date, date_range_days, in_window.
  repeat split; try lia.
Qed.

(** February selected on a sheet of three orders. *)
Lemma C1_past_period_witness :
  exists v, dashboard three_orders (all_selected 32 59) = Some v
            /\ v_past_start v = 5 /\ v_past_end v = 32.
Proof.
  eexists. split; [reflexivity|].
  destruct (C1_past_period three_orders (all_selected 32 59) _ eq_refl)
    as (_ & _ & _ & _ & H & _).
  split; [reflexivity|exact H].
Defined.

(* ================================================================== *)
(** * KPI aggregator *)

Lemma fold_left_Qplus_acc (l : list Q) (a : Q) :
  (fold_left Qplus l a == a + Qsum l)%Q.
Proof.
  unfold Qsum. revert a. induction l as [|x l IH]; intros a; cbn.
  - ring.
  - rewrite (IH (a + x)%Q), (IH (0 + x)%Q). ring.
Qed.

Lemma Qsum_cons (x : Q) (l : list Q) : (Qsum (x :: l) == x + Qsum l)%Q.
Proof.
  unfold Qsum at 1. cbn. rewrite fold_left_Qplus_acc. ring.
Qed.

Lemma Qsum_app (l1 l2 : list Q) : (Qsum (l1 ++ l2) == Qsum l1 + Qsum l2)%Q.
Proof.
  induction l1 as [|x l1 IH]; cbn [app].
  - unfold Qsum at 2. cbn. ring.
  - rewrite !Qsum_cons, IH. ring.
Qed.

Lemma In_dropna {A} (x : A) (col : list (option A)) :
  In x (dropna col) <-> In (Some x) col.
Proof.
  induction col as [|[y|] col IH]; cbn.
  - tauto.
  - rewrite IH. split; (intros [H|H]; [left; congruence|now right]).
  - rewrite IH. split; [now right|intros [H|H]; [discriminate|exact H]].
Qed.

(** The fields of [compute_kpis], on any frame. *)
Lemma compute_kpis_fields (df : frame) :
  total_sales (compute_kpis df) = Qsum (map sales df)
  /\ total_profit (compute_kpis df) = Qsum (map profit df)
  /\ total_orders (compute_kpis df) = nunique (map order_id df)
  /\ avg_order_value (compute_kpis df)
     = (if 0 <? total_orders (compute_kpis df)
        then (total_sales (compute_kpis df)
              / inject_Z (total_orders (compute_kpis df)))%Q
        else 0%Q)
  /\ profit_margin (compute_kpis df)
     = (if Qltb 0 (total_sales (compute_kpis df))
        then (total_profit (compute_kpis df)
              / total_sales (compute_kpis df) * 100)%Q
        else 0%Q)
  /\ avg_shipment_time (compute_kpis df)
     = match mean (map shipment_time df) with Some m => m | None => 0%Q end.
Proof.
  destruct df as [|r rest]; [repeat split; reflexivity|].
  unfold compute_kpis. cbn [empty total_sales total_profit total_orders
    avg_order_value profit_margin avg_shipment_time].
  repeat split; reflexivity.
Qed.

Lemma nunique_seen (id : string) (col : list (option string)) :
  In (Some id) col -> nunique (Some id :: col) = nunique col.
Proof.
  intros H. unfold nunique. cbn [dropna nodup].
  destruct (in_dec string_dec id (dropna col)) as [_|n]; [reflexivity|].
  exfalso. apply n. now apply In_dropna.
Qed.

Lemma nunique_new (id : string) (col : list (option string)) :
  ~ In (Some id) col -> nunique (Some id :: col) = nunique col + 1.
Proof.
  intros H. unfold nunique. cbn [dropna nodup].
  destruct (in_dec string_dec id (dropna col)) as [i|_].
  - exfalso. apply H. now apply In_dropna.
  - cbn [List.length]. lia.
Qed.

Lemma Qltb_true (x y : Q) : Qltb x y = true <-> (x < y)%Q.
Proof.
  unfold Qltb. rewrite negb_true_iff. split.
  - intros H. apply Qnot_le_lt. intros Hle.
    apply Qle_bool_iff in Hle. congruence.
  - intros H. destruct (Qle_bool y x) eqn:E; [|reflexivity].
    apply Qle_bool_iff in E. exfalso. exact (Qlt_not_le _ _ H E).
Qed.

(** C4: [compute_kpis] meets its equations on every frame: the two totals
    are the column sums, the number of orders is the number of distinct order
    identifiers (a row whose identifier was already seen adds nothing to it
    and its sales to the total; two rows of one order count 1), the two ratios
    are taken when their denominator is positive and are 0 when it is 0, the
    mean shipment time is 0 when no row has one, and all six are 0 on the
    empty frame. *)
Theorem C4_compute_kpis :
  (forall df : frame,
      let k := compute_kpis df in
      total_sales k = Qsum (map sales df)
      /\ total_profit k = Qsum (map profit df)
      /\ (exists ids : list string,
             NoDup ids
             /\ (forall id, In id ids <->
                            exists r, In r df /\ order_id r = Some id)
             /\ total_orders k = Z.of_nat (List.length ids))
      /\ (0 < total_orders k ->
          avg_order_value k = (total_sales k / inject_Z (total_orders k))%Q)
      /\ (total_orders k = 0 -> avg_order_value k = 0%Q)
      /\ ((0 < total_sales k)%Q ->
          profit_margin k = (total_profit k / total_sales k * 100)%Q)
      /\ ((total_sales k == 0)%Q -> profit_margin k = 0%Q)
      /\ avg_shipment_time k
         = match mean (map shipment_time df) with
           | Some m => m
           | None => 0%Q
           end)
  /\ (forall (r : row) (df : frame) (id : string),
         order_id r = Some id ->
         (total_sales (compute_kpis (r :: df))
          == sales r + total_sales (compute_kpis df))%Q
         /\ ((exists r', In r' df /\ order_id r' = Some id) ->
             total_orders (compute_kpis (r :: df))
             = total_orders (compute_kpis df))
         /\ (~ (exists r', In r' df /\ order_id r' = Some id) ->
             total_orders (compute_kpis (r :: df))
             = total_orders (compute_kpis df) + 1))
  /\ (forall (r1 r2 : row) (id : string),
         order_id r1 = Some id -> order_id r2 = Some id ->
         total_orders (compute_kpis [r1; r2]) = 1
         /\ (total_sales (compute_kpis [r1; r2]) == sales r1 + sales r2)%Q)
  /\ compute_kpis [] = zero_kpis.
Proof.
  split; [|split; [|split; [|reflexivity]]].
  - intros df k. subst k.
    destruct (compute_kpis_fields df) as (Hs & Hp & Ho & Ha & Hm & Ht).
    split; [exact Hs|]. split; [exact Hp|]. split.
    { exists (nodup string_dec (dropna (map order_id df))).
      split; [apply NoDup_nodup|]. split; [|exact Ho].
      intros id. rewrite nodup_In, In_dropna, in_map_iff.
      split; intros (r & H1 & H2); exists r; tauto. }
    split. { intros H. rewrite Ha. apply Z.ltb_lt in H. now rewrite H. }
    split. { intros H. rewrite Ha, H. reflexivity. }
    split. { intros H. rewrite Hm. apply Qltb_true in H. now rewrite H. }
    split; [|exact Ht].
    intros H. rewrite Hm.
    destruct (Qltb 0 (total_sales (compute_kpis df))) eqn:E; [|reflexivity].
    apply Qltb_true in E. rewrite H in E. discriminate E.
  - intros r df id Hid.
    destruct (compute_kpis_fields df) as (Hs & _ & Ho & _).
    destruct (compute_kpis_fields (r :: df)) as (Hs' & _ & Ho' & _).
    rewrite Hs, Hs', Ho, Ho'. cbn [map]. rewrite Hid.
    split; [apply Qsum_cons|]. split; intros H.
    + apply nunique_seen. apply in_map_iff.
      destruct H as (r' & H1 & H2). exists r'. auto.
    + apply nunique_new. intros Hin. apply H.
      apply in_map_iff in Hin. destruct Hin as (r' & H1 & H2). eauto.
  - intros r1 r2 id H1 H2.
    destruct (compute_kpis_fields [r1; r2]) as (Hs & _ & Ho & _).
    rewrite Hs, Ho. cbn [map]. rewrite H1, H2. split.
    + rewrite nunique_seen by (now left). reflexivity.
    + rewrite !Qsum_cons. unfold Qsum. cbn. ring.
Qed.

(** Two lines of order CA-1. *)
Lemma C4_compute_kpis_witness :
  total_orders (compute_kpis [ sample_row "CA-1" 1 "East" "Desk" 100 10;
                               sample_row "CA-1" 1 "East" "Lamp" 40 4 ]) = 1.
Proof.
  destruct C4_compute_kpis as (_ & _ & H & _).
  apply (H (sample_row "CA-1" 1 "East" "Desk" 100 10)
           (sample_row "CA-1" 1 "East" "Lamp" 40 4)
           "CA-1"%string eq_refl eq_refl).
Defined.

(* ================================================================== *)
(** * Filter engine *)

Lemma filter_filter_and {A} (f g : A -> bool) (l : list A) :
  filter f (filter g l) = filter (fun x => g x && f x) l.
Proof.
  induction l as [|x l IH]; cbn; [reflexivity|].
  destruct (g x); cbn; [destruct (f x)|]; now rewrite IH.
Qed.

Lemma filter_twice {A} (f : A -> bool) (l : list A) :
  filter f (filter f l) = filter f l.
Proof.
  rewrite filter_filter_and. apply filter_ext. intros x. now destruct (f x).
Qed.

Lemma filter_swap {A} (f g : A -> bool) (l : list A) :
  filter f (filter g l) = filter g (filter f l).
Proof.
  rewrite !filter_filter_and. apply filter_ext. intros x. apply andb_comm.
Qed.

Lemma filter_all {A} (f : A -> bool) (l : list A) :
  (forall x, In x l -> f x = true) -> filter f l = l.
Proof.
  induction l as [|x l IH]; cbn; intros H; [reflexivity|].
  rewrite (H x (or_introl eq_refl)). f_equal. apply IH. auto.
Qed.

Lemma selectbox_filter_passes (col : row -> string) (selected : string)
      (df : frame) :
  selectbox_filter col selected df = filter (passes col selected) df.
Proof.
  unfold selectbox_filter, passes.
  destruct (String.eqb selected "All"); cbn.
  - symmetry. now apply filter_all.
  - reflexivity.
Qed.

(** The five select boxes are one filter. *)
Lemma apply_selectboxes_filter (w : widgets) (df : frame) :
  apply_selectboxes w df = filter (row_matches w) df.
Proof.
  unfold apply_selectboxes. rewrite !selectbox_filter_passes.
  rewrite !filter_filter_and. apply filter_ext. intros r.
  unfold row_matches. now rewrite !andb_assoc.
Qed.

Lemma between_filter (lo hi : date) (df : frame) :
  between lo hi df = filter (row_in_range lo hi) df.
Proof. reflexivity. Qed.

Lemma apply_selectboxes_twice (w : widgets) (df : frame) :
  apply_selectboxes w (apply_selectboxes w df) = apply_selectboxes w df.
Proof. rewrite !apply_selectboxes_filter. apply filter_twice. Qed.

Lemma between_twice (lo hi : date) (df : frame) :
  between lo hi (between lo hi df) = between lo hi df.
Proof. rewrite !between_filter. apply filter_twice. Qed.

Lemma between_apply_selectboxes (w : widgets) (lo hi : date) (df : frame) :
  between lo hi (apply_selectboxes w df)
  = apply_selectboxes w (between lo hi df).
Proof.
  rewrite !apply_selectboxes_filter, !between_filter. apply filter_swap.
Qed.

(** Every row lies between the earliest and the latest order date. *)
Lemma between_min_max (df : frame) :
  between (order_date_min df) (order_date_max df) df = df.
Proof.
  rewrite between_filter. apply filter_all. intros r Hr.
  destruct df as [|r0 rest]; [destruct Hr|].
  destruct (order_date_min (r0 :: rest)) as [lo|] eqn:Hlo; [|discriminate].
  destruct (order_date_max (r0 :: rest)) as [hi|] eqn:Hhi; [|discriminate].
  pose proof (order_date_min_le _ _ _ Hlo Hr).
  pose proof (order_date_max_ge _ _ _ Hhi Hr).
  unfold row_in_range, date_leb. apply andb_true_iff. split; apply Z.leb_le; lia.
Qed.

Lemma empty_true (df : frame) : empty df = true <-> df = [].
Proof. destruct df; cbn; split; congruence. Qed.

Lemma empty_false (df : frame) : empty df = false <-> df <> [].
Proof. destruct df; cbn; split; congruence. Qed.

(** The state after the popover, in terms of the working frame. *)
Lemma filters_section_spec (df_original : frame) (w : widgets) :
  let st := filters_section df_original w in
  let wf := working_frame df_original w in
  from_date st = (if from_date_input w >? to_date_input w
                  then order_date_min wf else Some (from_date_input w))
  /\ to_date st = (if from_date_input w >? to_date_input w
                   then order_date_max wf else Some (to_date_input w))
  /\ df_filtered st = between (from_date st) (to_date st) wf
  /\ warnings st
     = (if empty (apply_selectboxes w df_original)
        then [warn_reset_full] else [])
       ++ (if from_date_input w >? to_date_input w
           then [warn_invalid_range] else []).
Proof.
  unfold filters_section, working_frame.
  destruct (empty (apply_selectboxes w df_original));
    destruct (from_date_input w >? to_date_input w); cbn;
    repeat split; reflexivity.
Qed.

Lemma filter_engine_spec (df_original : frame) (w : widgets) :
  let st := filters_section df_original w in
  let en := filter_engine df_original w in
  df_filtered en
  = (if empty (df_filtered st) then df_original else df_filtered st)
  /\ warnings en
     = warnings st ++ (if empty (df_filtered st) then [warn_show_full] else []).
Proof.
  unfold filter_engine.
  destruct (empty (df_filtered (filters_section df_original w))); cbn;
    split; try reflexivity.
  now rewrite app_nil_r.
Qed.

Lemma working_frame_twice (df_original : frame) (w : widgets) :
  working_frame (working_frame df_original w) w = working_frame df_original w.
Proof.
  unfold working_frame at 2.
  destruct (empty (apply_selectboxes w df_original)) eqn:E; [reflexivity|].
  unfold working_frame. rewrite apply_selectboxes_twice. now rewrite E.
Qed.

Lemma apply_selectboxes_working_frame (df_original : frame) (w : widgets) :
  apply_selectboxes w (working_frame df_original w)
  = apply_selectboxes w df_original.
Proof.
  unfold working_frame.
  destruct (empty (apply_selectboxes w df_original)); [reflexivity|].
  apply apply_selectboxes_twice.
Qed.

(** The date filter applied to a working frame yields a frame that is its
    own working frame. *)
Lemma working_frame_between (df_original : frame) (w : widgets) (lo hi : date) :
  working_frame (between lo hi (working_frame df_original w)) w
  = between lo hi (working_frame df_original w).
Proof.
  unfold working_frame at 1.
  rewrite <- between_apply_selectboxes, apply_selectboxes_working_frame.
  unfold working_frame.
  destruct (empty (apply_selectboxes w df_original)) eqn:E.
  - apply empty_true in E. rewrite E. reflexivity.
  - destruct (empty (between lo hi (apply_selectboxes w df_original)));
      reflexivity.
Qed.

(** The whole engine, fallbacks and date correction included, is idempotent
    as well. *)
Lemma filter_engine_idempotent (df_original : frame) (w : widgets) :
  df_filtered (filter_engine (df_filtered (filter_engine df_original w)) w)
  = df_filtered (filter_engine df_original w).
Proof.
  destruct (filter_engine_spec df_original w) as [Hen _].
  destruct (filters_section_spec df_original w) as (Hf & Ht & Hdf & _).
  cbv zeta in Hen, Hf, Ht, Hdf.
  destruct (empty (df_filtered (filters_section df_original w))) eqn:E;
    rewrite Hen; [exact Hen|].
  destruct (filter_engine_spec (df_filtered (filters_section df_original w)) w)
    as [HenX _].
  destruct (filters_section_spec (df_filtered (filters_section df_original w)) w)
    as (HfX & HtX & HdfX & _).
  cbv zeta in HenX, HfX, HtX, HdfX.
  assert (HX : df_filtered
                 (filters_section (df_filtered (filters_section df_original w)) w)
               = df_filtered (filters_section df_original w)).
  { rewrite HdfX, HfX, HtX.
    rewrite Hf, Ht in Hdf.
    destruct (from_date_input w >? to_date_input w) eqn:Ed.
    - rewrite between_min_max. rewrite between_min_max in Hdf.
      rewrite Hdf. apply working_frame_twice.
    - rewrite Hdf. rewrite working_frame_between. apply between_twice. }
  rewrite HenX, HX, E. reflexivity.
Qed.

(** C9: filtering is idempotent.  The categorical filters followed by the
    inclusive date range, applied to their own result, change nothing; and
    the same holds of the engine with its fallbacks and its date
    correction. *)
Theorem C9_filter_idempotent (w : widgets) (lo hi : date) (df : frame) :
  apply_filters w lo hi (apply_filters w lo hi df) = apply_filters w lo hi df
  /\ df_filtered (filter_engine (df_filtered (filter_engine df w)) w)
     = df_filtered (filter_engine df w).
Proof.
  split; [|apply filter_engine_idempotent].
  unfold apply_filters.
  rewrite <- (between_apply_selectboxes w lo hi (apply_selectboxes w df)).
  rewrite apply_selectboxes_twice. apply between_twice.
Qed.

Lemma offered_nonempty (col : row -> string) (df : frame) (v : string) :
  offered col df v -> df <> [] -> selectbox_filter col v df <> [].
Proof.
  intros Hoff Hne. unfold selectbox_filter.
  destruct (String.eqb v "All") eqn:E; [exact Hne|].
  destruct Hoff as [->|Hin]; [discriminate E|].
  apply in_map_iff in Hin. destruct Hin as (r & Hr & Hin).
  intros Hnil.
  assert (Hf : In r (filter (fun r0 => String.eqb (col r0) v) df)).
  { apply filter_In. split; [exact Hin|]. apply String.eqb_eq. exact Hr. }
  rewrite Hnil in Hf. destruct Hf.
Qed.

(** Through the cascaded select boxes the categorical filters never leave a
    sheet with rows empty: each offered value occurs in the frame it cuts. *)
Lemma reachable_nonempty (w : widgets) (df : frame) :
  reachable w df -> df <> [] -> apply_selectboxes w df <> [].
Proof.
  unfold reachable, apply_selectboxes.
  intros (H1 & H2 & H3 & H4 & H5) Hne.
  apply offered_nonempty; [exact H5|].
  apply offered_nonempty; [exact H4|].
  apply offered_nonempty; [exact H3|].
  apply offered_nonempty; [exact H2|].
  apply offered_nonempty; [exact H1|exact Hne].
Qed.




(** The claim of C6 fails when a category is selected: the reversed range is
    reset to the earliest and latest order dates of the rows of that
    category, not of the sheet. *)
Lemma C6_reset_uses_filtered_rows :
  let w := region_selected "West" 9 5 in
  let st := filters_section three_orders w in
  from_date_input w > to_date_input w
  /\ from_date st = Some 5 /\ to_date st = Some 9
  /\ order_date_min three_orders = Some 1
  /\ ~ (from_date st = order_date_min three_orders
        /\ to_date st = order_date_max three_orders).
Proof.
  cbv zeta. split; [reflexivity|]. split; [reflexivity|].
  split; [reflexivity|]. split; [reflexivity|].
  intros [H _]. discriminate H.
Qed.

(** C6 (as the code has it): when the picked range is reversed, the pair is
    reset to the earliest and latest order dates of the frame the date filter
    is about to run on (the categorically filtered rows, or the full sheet
    when no row matches or no category is selected), the date filter then
    keeps that frame whole, and the warning is issued. *)
Theorem C6_date_range_correction (df_original : frame) (w : widgets) :
  from_date_input w > to_date_input w ->
  let st := filters_section df_original w in
  from_date st = order_date_min (working_frame df_original w)
  /\ to_date st = order_date_max (working_frame df_original w)
  /\ df_filtered st = working_frame df_original w
  /\ In warn_invalid_range (warnings st)
  /\ (apply_selectboxes w df_original = []
      \/ apply_selectboxes w df_original = df_original ->
      from_date st = order_date_min df_original
      /\ to_date st = order_date_max df_original).
Proof.
  intros Hrev. cbv zeta.
  destruct (filters_section_spec df_original w) as (Hf & Ht & Hdf & Hw).
  cbv zeta in Hf, Ht, Hdf, Hw.
  assert (E : (from_date_input w >? to_date_input w) = true)
    by (apply Z.gtb_lt; lia).
  rewrite E in Hf, Ht, Hw.
  rewrite Hdf, Hf, Ht, Hw.
  split; [reflexivity|]. split; [reflexivity|].
  split; [apply between_min_max|]. split.
  - apply in_or_app. right. now left.
  - intros Hcat.
    assert (Hwf : working_frame df_original w = df_original).
    { unfold working_frame.
      destruct Hcat as [H|H]; rewrite H; [reflexivity|].
      now destruct df_original. }
    now rewrite Hwf.
Qed.

(** Reversed range with every select box on "All". *)
Lemma C6_date_range_correction_witness :
  from_date (filters_section three_orders (all_selected 9 5)) = Some 1
  /\ to_date (filters_section three_orders (all_selected 9 5)) = Some 9.
Proof.
  assert (Hrev : from_date_input (all_selected 9 5)
                 > to_date_input (all_selected 9 5)) by reflexivity.
  destruct (C6_date_range_correction three_orders (all_selected 9 5) Hrev)
    as (_ & _ & _ & _ & H).
  apply H. right. reflexivity.
Defined.

(* ================================================================== *)
(** * Comparison with the past period *)

Lemma apply_selectboxes_nil (w : widgets) : apply_selectboxes w [] = [].
Proof. rewrite apply_selectboxes_filter. reflexivity. Qed.

Lemma percentage_changes_zero_past (cur : kpis) :
  percentage_changes cur zero_kpis = zero_changes.
Proof. reflexivity. Qed.



Lemma past_out_of_range_iff (df_original : frame) (past_start past_end : Z) :
  past_out_of_range df_original past_start past_end = true
  <-> (exists lo, order_date_min df_original = Some lo /\ past_start < lo)
      \/ (exists hi, order_date_max df_original = Some hi /\ hi < past_end).
Proof.
  unfold past_out_of_range, date_ltb. rewrite orb_true_iff. split.
  - intros [H|H].
    + left. destruct (order_date_min df_original) as [lo|]; [|discriminate H].
      exists lo. split; [reflexivity|]. now apply Z.ltb_lt.
    + right. destruct (order_date_max df_original) as [hi|]; [|discriminate H].
      exists hi. split; [reflexivity|]. now apply Z.ltb_lt.
  - intros [(lo & -> & H)|(hi & -> & H)]; [left|right]; now apply Z.ltb_lt.
Qed.

(** C2: the past period is out of range exactly when its first day is before
    the earliest order date of the sheet or its last day is after the latest;
    the run does not raise on a sheet with rows, and then the past frame is
    empty, the six past KPIs are 0 and the six changes are reported as 0. *)
Theorem C2_past_period_out_of_range (df_original : frame) (w : widgets) :
  (forall past_start past_end,
      past_out_of_range df_original past_start past_end = true
      <-> (exists lo, order_date_min df_original = Some lo /\ past_start < lo)
          \/ (exists hi, order_date_max df_original = Some hi /\ hi < past_end))
  /\ (df_original <> [] -> exists v, dashboard df_original w = Some v)
  /\ (forall v,
         dashboard df_original w = Some v ->
         past_out_of_range df_original (v_past_start v) (v_past_end v) = true ->
         v_past v = []
         /\ v_past_data_available v = false
         /\ v_past_kpis v = zero_kpis
         /\ v_changes v = zero_changes
         /\ In warn_no_past (v_warnings v)).
Proof.
  split; [apply past_out_of_range_iff|]. split.
  - intros Hne. apply dashboard_defined. now left.
  - intros v Hrun Hout.
    destruct (dashboard_inv _ _ _ Hrun)
      as (_ & _ & _ & _ & _ & _ & _ & Hpast & Hav & _ & Hpk & Hch & Hlog).
    assert (Hnil : v_past v = []).
    { rewrite Hpast. unfold past_frame. rewrite Hout.
      apply apply_selectboxes_nil. }
    rewrite Hnil in Hav. cbn in Hav.
    rewrite Hav in Hpk, Hlog.
    split; [exact Hnil|]. split; [exact Hav|]. split; [exact Hpk|]. split.
    + rewrite Hch, Hpk. apply percentage_changes_zero_past.
    + rewrite Hlog. apply in_or_app. right. now left.
Qed.

(** The week of days 2 to 9: the week before it starts before the sheet. *)
Lemma C2_past_period_out_of_range_witness :
  exists v, dashboard three_orders (all_selected 2 9) = Some v
            /\ v_past_kpis v = zero_kpis /\ v_changes v = zero_changes.
Proof.
  eexists. split; [reflexivity|].
  destruct (C2_past_period_out_of_range three_orders (all_selected 2 9))
    as (_ & _ & H).
  destruct (H _ eq_refl eq_refl) as (_ & _ & Hk & Hc & _).
  split; [exact Hk|exact Hc].
Defined.



(* ================================================================== *)
(** * Top 10 products *)

Section GroupBy.

Variable k : selected_kpi.

Lemma accumulate_keys (name : string) (v : Q) (groups : table) (n : string) :
  In n (map fst (accumulate name v groups))
  <-> n = name \/ In n (map fst groups).
Proof.
  induction groups as [|[name' acc] rest IH]; cbn.
  - intuition.
  - destruct (String_as_OT.compare_spec name name') as [Heq|Hlt|Hgt]; cbn.
    + unfold String_as_OT.eq in Heq. subst name'. intuition.
    + intuition.
    + rewrite IH. intuition.
Qed.

Lemma key_lt_Forall (x : string * Q) (name : string) (v : Q) (groups : table) :
  String_as_OT.lt (fst x) name ->
  Forall (key_lt x) groups ->
  Forall (key_lt x) (accumulate name v groups).
Proof.
  intros Hx Hall. apply Forall_forall. intros y Hy.
  assert (Hk : In (fst y) (map fst (accumulate name v groups)))
    by (now apply in_map).
  apply accumulate_keys in Hk. unfold key_lt.
  destruct Hk as [->|Hk]; [exact Hx|].
  apply in_map_iff in Hk. destruct Hk as (z & Hz & Hin).
  rewrite <- Hz. rewrite Forall_forall in Hall. now apply Hall.
Qed.

Lemma accumulate_sorted (name : string) (v : Q) (groups : table) :
  StronglySorted key_lt groups ->
  StronglySorted key_lt (accumulate name v groups).
Proof.
  induction 1 as [|[name' acc] rest Hs IH Hall]; cbn.
  - constructor; constructor.
  - destruct (String_as_OT.compare_spec name name') as [Heq|Hlt|Hgt].
    + constructor; [exact Hs|]. exact Hall.
    + constructor; [now constructor|].
      constructor; [exact Hlt|].
      eapply Forall_impl; [|exact Hall].
      intros y Hy. unfold key_lt in *. cbn in *.
      now transitivity name'.
    + constructor; [exact IH|]. now apply key_lt_Forall.
Qed.

Lemma sorted_not_in (x : string * Q) (groups : table) :
  Forall (key_lt x) groups -> ~ In (fst x) (map fst groups).
Proof.
  intros Hall Hin. apply in_map_iff in Hin. destruct Hin as (y & Hy & Hin).
  rewrite Forall_forall in Hall. specialize (Hall y Hin).
  unfold key_lt in Hall. rewrite Hy in Hall.
  exact (StrictOrder_Irreflexive _ Hall).
Qed.

Lemma sorted_NoDup (groups : table) :
  StronglySorted key_lt groups -> NoDup (map fst groups).
Proof.
  induction 1 as [|x rest Hs IH Hall]; cbn; constructor.
  - now apply sorted_not_in.
  - exact IH.
Qed.

(** Where a row of the table after one step comes from. *)
Lemma accumulate_In (name : string) (v : Q) (groups : table)
      (n : string) (v' : Q) :
  StronglySorted key_lt groups ->
  In (n, v') (accumulate name v groups) ->
  (n <> name /\ In (n, v') groups)
  \/ (n = name /\ ~ In name (map fst groups) /\ v' = v)
  \/ (n = name /\ exists acc, In (name, acc) groups /\ v' = (acc + v)%Q).
Proof.
  induction 1 as [|[name' acc] rest Hs IH Hall]; cbn.
  - intros [[= <- <-]|[]]. right. left. intuition.
  - pose proof (sorted_not_in _ _ Hall) as Hnot. cbn in Hnot.
    destruct (String_as_OT.compare_spec name name') as [Heq|Hlt|Hgt]; cbn.
    + unfold String_as_OT.eq in Heq. subst name'.
      intros [[= <- <-]|Hin].
      * right. right. split; [reflexivity|]. exists acc. auto.
      * left. split; [|auto]. intros ->. apply Hnot.
        apply in_map_iff. exists (name, v'). auto.
    + assert (Hfresh : ~ In name (map fst ((name', acc) :: rest))).
      { apply (sorted_not_in (name, v)). constructor; [exact Hlt|].
        eapply Forall_impl; [|exact Hall].
        intros y Hy. unfold key_lt in *. cbn in *. now transitivity name'. }
      intros [[= <- <-]|Hin].
      * right. left. auto.
      * left. split; [|exact Hin]. intros ->. apply Hfresh.
        apply in_map_iff. exists (name, v'). auto.
    + assert (Hne : name' <> name).
      { intros ->. exact (StrictOrder_Irreflexive _ Hgt). }
      intros [[= <- <-]|Hin].
      * left. auto.
      * destruct (IH Hin) as [[H1 H2]|[(H1 & H2 & H3)|(H1 & a & H2 & H3)]].
        -- left. auto.
        -- right. left. split; [exact H1|]. split; [|exact H3].
           intros [H|H]; [congruence|contradiction].
        -- right. right. split; [exact H1|]. exists a. auto.
Qed.

Lemma product_total_snoc (name : string) (df : frame) (r : row) :
  (product_total k name (df ++ [r])
   == product_total k name df
      + (if String.eqb (product_name r) name then kpi_value k r else 0))%Q.
Proof.
  unfold product_total. rewrite filter_app, map_app, Qsum_app. cbn [filter].
  destruct (String.eqb (product_name r) name); cbn [map];
    rewrite ?Qsum_cons; change (Qsum []) with 0%Q; ring.
Qed.

Lemma product_total_absent (name : string) (df : frame) :
  ~ In name (map product_name df) -> product_total k name df = 0%Q.
Proof.
  intros Hno. unfold product_total.
  replace (filter (fun r => String.eqb (product_name r) name) df)
    with (@nil row); [reflexivity|].
  symmetry. induction df as [|r df IH]; cbn; [reflexivity|].
  destruct (String.eqb (product_name r) name) eqn:E.
  - exfalso. apply Hno. left. now apply String.eqb_eq.
  - apply IH. intros H. apply Hno. now right.
Qed.

Lemma df_product_sales_snoc (df : frame) (r : row) :
  df_product_sales k (df ++ [r])
  = accumulate (product_name r) (kpi_value k r) (df_product_sales k df).
Proof. unfold df_product_sales. now rewrite fold_left_app. Qed.

(** The group-by: keys ascending, one group per product of the frame, each
    holding the sum of the metric over the rows of its product. *)
Lemma df_product_sales_spec (df : frame) :
  StronglySorted key_lt (df_product_sales k df)
  /\ (forall n, In n (map fst (df_product_sales k df))
                <-> In n (map product_name df))
  /\ (forall n v, In (n, v) (df_product_sales k df) ->
                  (v == product_total k n df)%Q).
Proof.
  induction df as [|r df IH] using rev_ind.
  - cbn. split; [constructor|]. split; [tauto|intros n v []].
  - destruct IH as (Hs & Hkeys & Hval).
    rewrite df_product_sales_snoc.
    split; [now apply accumulate_sorted|]. split.
    + intros n. rewrite accumulate_keys, Hkeys, map_app, in_app_iff. cbn.
      intuition.
    + intros n v Hin. rewrite product_total_snoc.
      destruct (accumulate_In _ _ _ _ _ Hs Hin)
        as [[H1 H2]|[(H1 & H2 & H3)|(H1 & a & H2 & H3)]].
      * assert (E : String.eqb (product_name r) n = false).
        { apply String.eqb_neq. congruence. }
        rewrite E, (Hval _ _ H2). ring.
      * subst n v. rewrite String.eqb_refl.
        rewrite product_total_absent; [ring|]. now rewrite <- Hkeys.
      * subst n v. rewrite String.eqb_refl, (Hval _ _ H2). ring.
Qed.

Lemma df_product_sales_length (df : frame) :
  List.length (df_product_sales k df) = distinct_products df.
Proof.
  destruct (df_product_sales_spec df) as (Hs & Hkeys & _).
  unfold distinct_products. rewrite <- (length_map fst).
  apply Permutation_length, NoDup_Permutation.
  - now apply sorted_NoDup.
  - apply NoDup_nodup.
  - intros n. now rewrite Hkeys, nodup_In.
Qed.

End GroupBy.

Lemma insert_desc_perm (keep_ties : bool) (x : string * Q) (t : table) :
  Permutation (x :: t) (insert_desc keep_ties x t).
Proof.
  induction t as [|y rest IH]; cbn; [reflexivity|].
  destruct (if keep_ties then Qle_bool (snd y) (snd x)
            else Qltb (snd y) (snd x)); [reflexivity|].
  rewrite perm_swap. now apply perm_skip.
Qed.

Lemma insert_desc_sorted (keep_ties : bool) (x : string * Q) (t : table) :
  Sorted (fun a b => (snd b <= snd a)%Q) t ->
  Sorted (fun a b => (snd b <= snd a)%Q) (insert_desc keep_ties x t).
Proof.
  induction 1 as [|y rest Hs IH Hhd]; cbn.
  - repeat constructor.
  - destruct (if keep_ties then Qle_bool (snd y) (snd x)
              else Qltb (snd y) (snd x)) eqn:E.
    + constructor; [now constructor|]. constructor.
      destruct keep_ties.
      * now apply Qle_bool_iff.
      * apply Qlt_le_weak. now apply Qltb_true.
    + assert (Hxy : (snd x <= snd y)%Q).
      { destruct keep_ties.
        - apply Qlt_le_weak, Qnot_le_lt. intros H.
          apply Qle_bool_iff in H. congruence.
        - apply Qnot_lt_le. intros H. apply Qltb_true in H. congruence. }
      constructor; [exact IH|].
      destruct rest as [|z rest]; cbn.
      * now constructor.
      * destruct (if keep_ties then Qle_bool (snd z) (snd x)
                  else Qltb (snd z) (snd x)); constructor; [exact Hxy|].
        now inversion Hhd.
Qed.

(** Both insertion sorts meet the contract of [sort_values]. *)
Lemma insertion_sort_sorts (keep_ties : bool) :
  sorts_descending (insertion_sort_desc keep_ties).
Proof.
  intros t. split.
  - induction t as [|x t IH]; cbn; [constructor|].
    rewrite <- insert_desc_perm. now apply perm_skip.
  - apply Sorted_StronglySorted.
    + intros a b c Hab Hbc. eapply Qle_trans; eassumption.
    + induction t as [|x t IH]; cbn; [constructor|].
      now apply insert_desc_sorted.
Qed.



Lemma insert_desc_keeps_ties (q : Q) (x : string * Q) (t : table) :
  filter (has_sum q) (insert_desc true x t)
  = filter (has_sum q) (x :: t).
Proof.
  induction t as [|y rest IH]; [reflexivity|].
  cbn [insert_desc]. destruct (Qle_bool (snd y) (snd x)) eqn:E; [reflexivity|].
  cbn [filter] in *. rewrite IH.
  destruct (has_sum q x) eqn:Ex; [|reflexivity].
  destruct (has_sum q y) eqn:Ey; [|reflexivity].
  exfalso. unfold has_sum in Ex, Ey.
  apply Qeq_bool_iff in Ex, Ey.
  assert (H : Qle_bool (snd y) (snd x) = true).
  { apply Qle_bool_iff. rewrite Ex, Ey. apply Qle_refl. }
  congruence.
Qed.

(** With a stable sort the rows of equal sums do keep the order of their
    groups, also after the cut to the first rows. *)
Lemma stable_sort_keeps_ties (n : nat) (groups : table) :
  ties_in_group_order groups (firstn n (stable_sort_desc groups)).
Proof.
  intros q.
  assert (H : filter (has_sum q) (stable_sort_desc groups)
              = filter (has_sum q) groups).
  { unfold stable_sort_desc, insertion_sort_desc.
    induction groups as [|x t IH]; [reflexivity|].
    cbn [fold_right]. rewrite insert_desc_keeps_ties. cbn [filter].
    now rewrite IH. }
  exists (filter (has_sum q) (skipn n (stable_sort_desc groups))).
  now rewrite <- filter_app, firstn_skipn.
Qed.




(* ================================================================== *)
(** * Further properties of the filter engine *)

Import Views.

Lemma passes_iff (col : row -> string) (selected : string) (r : row) :
  passes col selected r = true
  <-> selected = "All"%string \/ col r = selected.
Proof.
  unfold passes. rewrite orb_true_iff, !String.eqb_eq. tauto.
Qed.

Lemma row_in_range_iff (lo hi : Z) (r : row) :
  row_in_range (Some lo) (Some hi) r = true <-> lo <= order_date r <= hi.
Proof.
  unfold row_in_range, date_leb. rewrite andb_true_iff, !Z.leb_le. tauto.
Qed.

(** X1: a row is in the filtered frame exactly when it is a row of the
    input, each select box is on "All" or on the row's own value, and the
    order date lies in the inclusive range. *)
Theorem X1_apply_filters_rows (w : widgets) (lo hi : Z) (df : frame) (r : row) :
  In r (apply_filters w (Some lo) (Some hi) df)
  <-> In r df
      /\ (selected_region w = "All"%string \/ region r = selected_region w)
      /\ (selected_state w = "All"%string \/ state r = selected_state w)
      /\ (selected_category w = "All"%string
          \/ category r = selected_category w)
      /\ (selected_subcat w = "All"%string
          \/ sub_category r = selected_subcat w)
      /\ (selected_segment w = "All"%string \/ segment r = selected_segment w)
      /\ lo <= order_date r <= hi.
Proof.
  unfold apply_filters.
  rewrite between_filter, apply_selectboxes_filter, !filter_In.
  rewrite row_in_range_iff. unfold row_matches.
  rewrite !andb_true_iff, !passes_iff. tauto.
Qed.

(** X2: the select boxes can be applied in any order: taken from the last
    to the first they leave the same frame. *)
Theorem X2_selectboxes_any_order (w : widgets) (df : frame) :
  selectbox_filter region (selected_region w)
    (selectbox_filter state (selected_state w)
       (selectbox_filter category (selected_category w)
          (selectbox_filter sub_category (selected_subcat w)
             (selectbox_filter segment (selected_segment w) df))))
  = apply_selectboxes w df.
Proof.
  rewrite apply_selectboxes_filter, !selectbox_filter_passes.
  rewrite !filter_filter_and. apply filter_ext. intros r.
  unfold row_matches.
  destruct (passes region (selected_region w) r),
           (passes state (selected_state w) r),
           (passes category (selected_category w) r),
           (passes sub_category (selected_subcat w) r),
           (passes segment (selected_segment w) r); reflexivity.
Qed.

Lemma between_incl (lo hi : date) (df : frame) (r : row) :
  In r (between lo hi df) -> In r df.
Proof. rewrite between_filter, filter_In. tauto. Qed.

Lemma apply_selectboxes_incl (w : widgets) (df : frame) (r : row) :
  In r (apply_selectboxes w df) -> In r df.
Proof. rewrite apply_selectboxes_filter, filter_In. tauto. Qed.

Lemma working_frame_incl (df_original : frame) (w : widgets) (r : row) :
  In r (working_frame df_original w) -> In r df_original.
Proof.
  unfold working_frame.
  destruct (empty (apply_selectboxes w df_original)); [tauto|].
  apply apply_selectboxes_incl.
Qed.

Lemma filter_engine_incl (df_original : frame) (w : widgets) (r : row) :
  In r (df_filtered (filter_engine df_original w)) -> In r df_original.
Proof.
  destruct (filter_engine_spec df_original w) as [Hdf _].
  destruct (filters_section_spec df_original w) as (_ & _ & Hsec & _).
  cbv zeta in Hdf, Hsec. rewrite Hdf.
  destruct (empty (df_filtered (filters_section df_original w)));
    [tauto|].
  intros Hr. rewrite Hsec in Hr.
  apply between_incl in Hr. now apply working_frame_incl in Hr.
Qed.

(** X3: after the two fallbacks the working frame is never empty on a sheet
    with rows, and it never holds a row that is not in the sheet. *)
Theorem X3_engine_frame (df_original : frame) (w : widgets) :
  (df_original <> [] -> df_filtered (filter_engine df_original w) <> [])
  /\ (forall r, In r (df_filtered (filter_engine df_original w)) ->
                In r df_original).
Proof.
  split; [|intros r; apply filter_engine_incl].
  destruct (filter_engine_spec df_original w) as [Hdf _].
  cbv zeta in Hdf. rewrite Hdf.
  destruct (empty (df_filtered (filters_section df_original w))) eqn:E.
  - tauto.
  - intros _. now apply empty_false.
Qed.

(** Region West on a day without orders in the West. *)
Lemma X3_engine_frame_witness :
  df_filtered (filter_engine three_orders (region_selected "West" 7 7)) <> [].
Proof.
  destruct (X3_engine_frame three_orders (region_selected "West" 7 7))
    as [H _].
  apply H. discriminate.
Defined.

(** The messages of the engine, in the order they are issued. *)
Lemma filter_engine_warnings (df_original : frame) (w : widgets) :
  warnings (filter_engine df_original w)
  = (if empty (apply_selectboxes w df_original)
     then [warn_reset_full] else [])
    ++ (if from_date_input w >? to_date_input w
        then [warn_invalid_range] else [])
    ++ (if empty (df_filtered (filters_section df_original w))
        then [warn_show_full] else []).
Proof.
  destruct (filter_engine_spec df_original w) as [_ Hlog].
  destruct (filters_section_spec df_original w) as (_ & _ & _ & Hw).
  cbv zeta in Hlog, Hw. rewrite Hlog, Hw. now rewrite app_assoc.
Qed.

(** X4: each of the three warnings of the engine is issued exactly on its
    own condition: the reset warning when the select boxes match no row, the
    range warning when the picked range is reversed, the full-sheet warning
    when the date filter leaves nothing. *)
Theorem X4_engine_warnings (df_original : frame) (w : widgets) :
  let st := filter_engine df_original w in
  (In warn_reset_full (warnings st) <-> apply_selectboxes w df_original = [])
  /\ (In warn_invalid_range (warnings st)
      <-> from_date_input w > to_date_input w)
  /\ (In warn_show_full (warnings st)
      <-> between (from_date st) (to_date st)
                  (working_frame df_original w) = []).
Proof.
  cbv zeta. rewrite filter_engine_warnings.
  destruct (filter_engine_dates df_original w) as [-> ->].
  destruct (filters_section_spec df_original w) as (_ & _ & <- & _).
  rewrite <- !empty_true.
  assert (Hgt : (from_date_input w >? to_date_input w) = true
                <-> from_date_input w > to_date_input w).
  { rewrite Z.gtb_ltb, Z.ltb_lt. lia. }
  rewrite <- Hgt.
  destruct (empty (apply_selectboxes w df_original));
    destruct (from_date_input w >? to_date_input w);
    destruct (empty (df_filtered (filters_section df_original w)));
    cbn; repeat split; intros H; try reflexivity; try discriminate H;
    try tauto;
    repeat (destruct H as [H|H]; try discriminate H); try contradiction.
Qed.

(** X5: with selections taken from the cascaded select boxes on a sheet with
    rows, the reset of line 179 never happens: no reset warning, and the
    popover leaves exactly the rows of the sheet that pass every filter. *)
Theorem X5_reachable_no_reset (df_original : frame) (w : widgets) :
  reachable w df_original -> df_original <> [] ->
  let st := filters_section df_original w in
  ~ In warn_reset_full (warnings st)
  /\ df_filtered st = apply_filters w (from_date st) (to_date st) df_original.
Proof.
  intros Hreach Hne. cbv zeta.
  pose proof (reachable_nonempty _ _ Hreach Hne) as Hcat.
  apply empty_false in Hcat.
  destruct (filters_section_spec df_original w) as (_ & _ & Hsec & Hw).
  cbv zeta in Hsec, Hw. rewrite Hw, Hsec, Hcat.
  unfold working_frame, apply_filters. rewrite Hcat. split; [|reflexivity].
  destruct (from_date_input w >? to_date_input w); cbn;
    intros H; repeat (destruct H as [H|H]; try discriminate H); contradiction.
Qed.

(** Region West, picked from the regions of the sheet. *)
Lemma X5_reachable_no_reset_witness :
  ~ In warn_reset_full
       (warnings (filters_section three_orders (region_selected "West" 5 9))).
Proof.
  assert (Hreach : reachable (region_selected "West" 5 9) three_orders).
  { unfold reachable. cbn.
    split; [right; cbn; auto|]. repeat split; left; reflexivity. }
  assert (Hne : three_orders <> []) by discriminate.
  exact (proj1 (X5_reachable_no_reset _ _ Hreach Hne)).
Defined.

(* ================================================================== *)
(** * Further properties of one run *)

(** X6: when the select boxes match rows but none of them in the picked
    range, the second fallback puts the full sheet back, and the current
    frame (the one the KPIs are computed on) is the sheet cut to the range,
    with the select boxes no longer applied. *)
Theorem X6_second_fallback (df_original : frame) (w : widgets) (v : view) :
  dashboard df_original w = Some v ->
  apply_selectboxes w df_original <> [] ->
  apply_filters w (Some (v_from v)) (Some (v_to v)) df_original = [] ->
  v_filtered v = df_original
  /\ v_current v = between (Some (v_from v)) (Some (v_to v)) df_original
  /\ v_kpis v
     = compute_kpis (between (Some (v_from v)) (Some (v_to v)) df_original).
Proof.
  intros Hrun Hcat Hnone.
  destruct (dashboard_inv _ _ _ Hrun)
    as (Hf & Ht & Hfil & _ & _ & _ & Hcur & _ & _ & Hk & _).
  destruct (filter_engine_spec df_original w) as [Hdf _].
  destruct (filters_section_spec df_original w) as (_ & _ & Hsec & _).
  cbv zeta in Hdf, Hsec.
  apply empty_false in Hcat.
  unfold working_frame in Hsec. rewrite Hcat, Hf, Ht in Hsec.
  unfold apply_filters in Hnone. rewrite Hnone in Hsec.
  rewrite Hsec in Hdf. cbn in Hdf.
  rewrite Hfil, Hdf in *. rewrite Hk, Hcur. auto.
Qed.

(** Region West and day 1, on which only the East has an order: the KPIs
    are those of the East. *)
Lemma X6_second_fallback_witness :
  exists v, dashboard three_orders (region_selected "West" 1 1) = Some v
            /\ v_current v = [sample_row "CA-1" 1 "East" "Desk" 100 10].
Proof.
  eexists. split; [reflexivity|].
  destruct (X6_second_fallback three_orders (region_selected "West" 1 1) _
              eq_refl) as (_ & H & _);
    [discriminate|reflexivity|].
  rewrite H. reflexivity.
Defined.

(** X7: the current frame holds rows of the sheet dated within the current
    range; the past frame holds rows of the sheet dated within the past range
    that pass every select box. *)
Theorem X7_frames_in_range (df_original : frame) (w : widgets) (v : view) :
  dashboard df_original w = Some v ->
  (forall r, In r (v_current v) ->
             In r df_original /\ v_from v <= order_date r <= v_to v)
  /\ (forall r, In r (v_past v) ->
                In r df_original
                /\ v_past_start v <= order_date r <= v_past_end v
                /\ row_matches w r = true).
Proof.
  intros Hrun.
  destruct (dashboard_inv _ _ _ Hrun)
    as (_ & _ & Hfil & _ & _ & _ & Hcur & Hpast & _).
  split.
  - intros r Hr. rewrite Hcur, between_filter, filter_In in Hr.
    destruct Hr as [Hin Hrange]. apply row_in_range_iff in Hrange.
    split; [|exact Hrange].
    rewrite Hfil in Hin. now apply (filter_engine_incl df_original w).
  - intros r Hr. rewrite Hpast in Hr. unfold past_frame in Hr.
    rewrite apply_selectboxes_filter, filter_In in Hr.
    destruct Hr as [Hin Hmatch].
    destruct (past_out_of_range df_original (v_past_start v) (v_past_end v));
      [destruct Hin|].
    rewrite between_filter, filter_In, row_in_range_iff in Hin. tauto.
Qed.

(** The week of days 5 to 9 on the sheet of three orders. *)
Lemma X7_frames_in_range_witness :
  exists v, dashboard three_orders (all_selected 5 9) = Some v
            /\ forall r, In r (v_current v) -> 5 <= order_date r <= 9.
Proof.
  eexists. split; [reflexivity|].
  destruct (X7_frames_in_range three_orders (all_selected 5 9) _ eq_refl)
    as [H _].
  intros r Hr. exact (proj2 (H r Hr)).
Defined.

Lemma filter_engine_no_past_warning (df_original : frame) (w : widgets) :
  ~ In warn_no_past (warnings (filter_engine df_original w)).
Proof.
  rewrite filter_engine_warnings.
  destruct (empty (apply_selectboxes w df_original));
    destruct (from_date_input w >? to_date_input w);
    destruct (empty (df_filtered (filters_section df_original w)));
    cbn; intros H;
    repeat (destruct H as [H|H]; try discriminate H); contradiction.
Qed.

(** X8: the warning about the past period is issued exactly when the past
    frame is empty, whether the past range left the sheet or simply holds no
    matching row; the six changes are then reported as exactly 0. *)
Theorem X8_no_past_data (df_original : frame) (w : widgets) (v : view) :
  dashboard df_original w = Some v ->
  (In warn_no_past (v_warnings v) <-> v_past v = [])
  /\ (v_past v = [] ->
      v_past_kpis v = zero_kpis /\ v_changes v = zero_changes).
Proof.
  intros Hrun.
  destruct (dashboard_inv _ _ _ Hrun)
    as (_ & _ & _ & _ & _ & _ & _ & _ & Hav & _ & Hpk & Hch & Hlog).
  pose proof (filter_engine_no_past_warning df_original w) as Hno.
  rewrite Hlog, Hch, Hpk, Hav. rewrite <- empty_true.
  destruct (empty (v_past v)); cbn.
  - split; [|intros _; split; [reflexivity|apply percentage_changes_zero_past]].
    split; [reflexivity|]. intros _. apply in_or_app. right. now left.
  - split; [|discriminate]. split; [intros H; contradiction|discriminate].
Qed.

(** Region East on day 5: the past range is day 5 itself, inside the sheet,
    but the East has no order on it. *)
Lemma X8_no_past_data_witness :
  exists v, dashboard three_orders (region_selected "East" 5 5) = Some v
            /\ v_changes v = zero_changes.
Proof.
  eexists. split; [reflexivity|].
  destruct (X8_no_past_data three_orders (region_selected "East" 5 5) _ eq_refl)
    as [_ H].
  apply H. reflexivity.
Defined.

(* ================================================================== *)
(** * Further properties of the KPIs *)

Lemma Qsum_perm (l l' : list Q) : Permutation l l' -> (Qsum l == Qsum l')%Q.
Proof.
  induction 1 as [|x l l' _ IH|x y l|l l' l'' _ IH1 _ IH2].
  - reflexivity.
  - now rewrite !Qsum_cons, IH.
  - rewrite !Qsum_cons. ring.
  - now rewrite IH1.
Qed.

Lemma dropna_perm {A} (l l' : list (option A)) :
  Permutation l l' -> Permutation (dropna l) (dropna l').
Proof.
  induction 1 as [|x l l' _ IH|x y l|l l' l'' _ IH1 _ IH2].
  - constructor.
  - destruct x; cbn; [now constructor|exact IH].
  - destruct x, y; cbn; try reflexivity. apply perm_swap.
  - now transitivity (dropna l').
Qed.

Lemma nunique_perm (l l' : list (option string)) :
  Permutation l l' -> nunique l = nunique l'.
Proof.
  intros H. unfold nunique. f_equal.
  apply Permutation_length, NoDup_Permutation; try apply NoDup_nodup.
  intros x. rewrite !nodup_In.
  split; apply Permutation_in; [|symmetry]; now apply dropna_perm.
Qed.

Lemma fold_left_Zadd_acc (l : list Z) (a : Z) :
  fold_left Z.add l a = a + fold_left Z.add l 0.
Proof.
  revert a. induction l as [|x l IH]; intros a; cbn; [lia|].
  rewrite (IH (a + x)), (IH x). lia.
Qed.

Lemma fold_left_Zadd_perm (l l' : list Z) :
  Permutation l l' -> fold_left Z.add l 0 = fold_left Z.add l' 0.
Proof.
  induction 1 as [|x l l' _ IH|x y l|l l' l'' _ IH1 _ IH2]; cbn.
  - reflexivity.
  - rewrite (fold_left_Zadd_acc l x), (fold_left_Zadd_acc l' x). lia.
  - rewrite (fold_left_Zadd_acc l (y + x)), (fold_left_Zadd_acc l (x + y)). lia.
  - congruence.
Qed.

Lemma mean_perm (l l' : list (option Z)) :
  Permutation l l' -> mean l = mean l'.
Proof.
  intros H. apply dropna_perm in H. unfold mean.
  pose proof (Permutation_length H) as Hlen.
  pose proof (fold_left_Zadd_perm _ _ H) as Hsum.
  destruct (dropna l) as [|x xs]; destruct (dropna l') as [|y ys];
    try discriminate Hlen; [reflexivity|].
  now rewrite Hsum, Hlen.
Qed.

Lemma Qltb_compat (x y y' : Q) : (y == y')%Q -> Qltb x y = Qltb x y'.
Proof.
  intros H. unfold Qltb. f_equal.
  destruct (Qle_bool y x) eqn:E; destruct (Qle_bool y' x) eqn:E'; auto.
  - apply Qle_bool_iff in E. rewrite H in E. apply Qle_bool_iff in E.
    congruence.
  - apply Qle_bool_iff in E'. rewrite <- H in E'. apply Qle_bool_iff in E'.
    congruence.
Qed.

(** X9: the KPIs do not depend on the order of the rows. *)
Theorem X9_kpis_row_order (df df' : frame) :
  Permutation df df' ->
  (total_sales (compute_kpis df) == total_sales (compute_kpis df'))%Q
  /\ (avg_order_value (compute_kpis df)
      == avg_order_value (compute_kpis df'))%Q
  /\ total_orders (compute_kpis df) = total_orders (compute_kpis df')
  /\ (total_profit (compute_kpis df) == total_profit (compute_kpis df'))%Q
  /\ (profit_margin (compute_kpis df) == profit_margin (compute_kpis df'))%Q
  /\ avg_shipment_time (compute_kpis df)
     = avg_shipment_time (compute_kpis df').
Proof.
  intros Hperm.
  destruct (compute_kpis_fields df) as (Hs & Hp & Ho & Ha & Hm & Ht).
  destruct (compute_kpis_fields df') as (Hs' & Hp' & Ho' & Ha' & Hm' & Ht').
  assert (Es : (total_sales (compute_kpis df)
                == total_sales (compute_kpis df'))%Q).
  { rewrite Hs, Hs'. apply Qsum_perm. now apply Permutation_map. }
  assert (Ep : (total_profit (compute_kpis df)
                == total_profit (compute_kpis df'))%Q).
  { rewrite Hp, Hp'. apply Qsum_perm. now apply Permutation_map. }
  assert (Eo : total_orders (compute_kpis df) = total_orders (compute_kpis df')).
  { rewrite Ho, Ho'. apply nunique_perm. now apply Permutation_map. }
  split; [exact Es|]. split; [|split; [exact Eo|split; [exact Ep|split]]].
  - rewrite Ha, Ha', <- Eo.
    destruct (0 <? total_orders (compute_kpis df)); [|reflexivity].
    now rewrite Es.
  - rewrite Hm, Hm', <- (Qltb_compat 0 _ _ Es).
    destruct (Qltb 0 (total_sales (compute_kpis df))); [|reflexivity].
    now rewrite Es, Ep.
  - rewrite Ht, Ht'.
    now rewrite (mean_perm _ _ (Permutation_map shipment_time Hperm)).
Qed.

(** The sheet of three orders read backwards. *)
Lemma X9_kpis_row_order_witness :
  total_orders (compute_kpis three_orders)
  = total_orders (compute_kpis (rev three_orders)).
Proof.
  destruct (X9_kpis_row_order three_orders (rev three_orders)
              (Permutation_rev three_orders)) as (_ & _ & H & _).
  exact H.
Defined.



Lemma nodup_length_le {A} (dec : forall x y : A, {x = y} + {x <> y})
      (l : list A) :
  (List.length (nodup dec l) <= List.length l)%nat.
Proof.
  induction l as [|x l IH]; cbn; [lia|].
  destruct (in_dec dec x l); cbn; lia.
Qed.

Lemma dropna_length_le {A} (l : list (option A)) :
  (List.length (dropna l) <= List.length l)%nat.
Proof. induction l as [|[x|] l IH]; cbn; lia. Qed.

(** X11: the number of orders never exceeds the number of rows, is never
    negative, and is at least 1 as soon as one row carries an order
    identifier. *)
Theorem X11_total_orders_bounds (df : frame) :
  0 <= total_orders (compute_kpis df) <= Z.of_nat (List.length df)
  /\ ((exists r id, In r df /\ order_id r = Some id) ->
      1 <= total_orders (compute_kpis df)).
Proof.
  destruct (compute_kpis_fields df) as (_ & _ & Ho & _). rewrite Ho.
  unfold nunique. split.
  - pose proof (nodup_length_le string_dec (dropna (map order_id df))).
    pose proof (dropna_length_le (map order_id df)).
    rewrite length_map in *. lia.
  - intros (r & id & Hin & Hid).
    assert (Hn : In id (nodup string_dec (dropna (map order_id df)))).
    { apply nodup_In, In_dropna. rewrite <- Hid. now apply in_map. }
    destruct (nodup string_dec (dropna (map order_id df))); [destruct Hn|].
    cbn [List.length]. lia.
Qed.

(** The sheet of three orders. *)
Lemma X11_total_orders_bounds_witness :
  1 <= total_orders (compute_kpis three_orders).
Proof.
  destruct (X11_total_orders_bounds three_orders) as [_ H].
  apply H. exists (sample_row "CA-1" 1 "East" "Desk" 100 10), "CA-1"%string.
  split; [left|]; reflexivity.
Defined.

Lemma fold_left_Zadd_bounds (lo hi : Z) (l : list Z) :
  (forall t, In t l -> lo <= t <= hi) ->
  lo * Z.of_nat (List.length l) <= fold_left Z.add l 0
  <= hi * Z.of_nat (List.length l).
Proof.
  induction l as [|x l IH]; intros H; [cbn; lia|].
  cbn [fold_left List.length]. rewrite (fold_left_Zadd_acc l (0 + x)).
  assert (Hx : lo <= x <= hi) by (apply H; now left).
  assert (Hl : forall t, In t l -> lo <= t <= hi) by (intros; apply H; now right).
  specialize (IH Hl). lia.
Qed.

(** X12: the average shipment time lies between the shortest and the longest
    shipment time of the rows that have one. *)
Theorem X12_avg_shipment_time_bounds (df : frame) (lo hi : Z) :
  (exists r t, In r df /\ shipment_time r = Some t) ->
  (forall r t, In r df -> shipment_time r = Some t -> lo <= t <= hi) ->
  (inject_Z lo <= avg_shipment_time (compute_kpis df) <= inject_Z hi)%Q.
Proof.
  intros (r0 & t0 & Hin0 & Ht0) Hall.
  destruct (compute_kpis_fields df) as (_ & _ & _ & _ & _ & Ht). rewrite Ht.
  unfold mean.
  assert (Hb : forall t, In t (dropna (map shipment_time df)) -> lo <= t <= hi).
  { intros t Hin. apply In_dropna, in_map_iff in Hin.
    destruct Hin as (r & Hr & Hin). eauto. }
  assert (Hne : In t0 (dropna (map shipment_time df))).
  { apply In_dropna. rewrite <- Ht0. now apply in_map. }
  pose proof (fold_left_Zadd_bounds lo hi _ Hb) as Hsum.
  destruct (dropna (map shipment_time df)) as [|x xs] eqn:E; [destruct Hne|].
  set (n := Z.of_nat (List.length (x :: xs))) in *.
  assert (Hn : 0 < n) by (unfold n; cbn [List.length]; lia).
  assert (HnQ : (0 < inject_Z n)%Q).
  { change (inject_Z 0 < inject_Z n)%Q. rewrite <- Zlt_Qlt. exact Hn. }
  split.
  - apply Qle_shift_div_l; [exact HnQ|].
    rewrite <- inject_Z_mult, <- Zle_Qle. lia.
  - apply Qle_shift_div_r; [exact HnQ|].
    rewrite <- inject_Z_mult, <- Zle_Qle. lia.
Qed.

(** Every sample order ships in 2 days. *)
Lemma X12_avg_shipment_time_bounds_witness :
  (inject_Z 2 <= avg_shipment_time (compute_kpis three_orders) <= inject_Z 2)%Q.
Proof.
  apply X12_avg_shipment_time_bounds.
  - exists (sample_row "CA-1" 1 "East" "Desk" 100 10), 2.
    split; [left|]; reflexivity.
  - intros r t Hin Ht.
    destruct Hin as [<-|[<-|[<-|[]]]]; injection Ht as <-; lia.
Defined.

(* ================================================================== *)
(** * Further properties of the percentage change *)

Lemma calc_percentage_change_Q_times (current past : Q) :
  ~ (past == 0)%Q ->
  (calc_percentage_change current past * past == (current - past) * 100)%Q.
Proof.
  intros Hp. rewrite (calc_percentage_change_Q_ratio current past Hp).
  field. exact Hp.
Qed.

(** X13: the change undoes: a past value that is not 0, raised by the
    reported percentage, is the current value. *)
Theorem X13_change_round_trip (current past : Q) :
  ~ (past == 0)%Q ->
  (past + past * calc_percentage_change current past / 100 == current)%Q.
Proof.
  intros Hp. rewrite (calc_percentage_change_Q_ratio current past Hp).
  field. exact Hp.
Qed.

(** 120 raised by 25 percent is 150. *)
Lemma X13_change_round_trip_witness :
  (120 + 120 * calc_percentage_change 150 120 / 100 == 150)%Q.
Proof.
  apply X13_change_round_trip. intros H. discriminate H.
Defined.

(** X14: against a positive past value the change has the sign of the
    difference; against a negative past value (a loss) the sign is the
    opposite: a smaller loss is reported as a negative change. *)
Theorem X14_change_sign (current past : Q) :
  ((0 < past)%Q ->
   ((0 < calc_percentage_change current past)%Q <-> (past < current)%Q)
   /\ ((calc_percentage_change current past < 0)%Q <-> (current < past)%Q))
  /\ ((past < 0)%Q ->
      ((0 < calc_percentage_change current past)%Q <-> (current < past)%Q)
      /\ ((calc_percentage_change current past < 0)%Q
          <-> (past < current)%Q)).
Proof.
  split; intros Hp;
    (assert (Hne : ~ (past == 0)%Q) by (intros H; rewrite H in Hp; discriminate Hp));
    pose proof (calc_percentage_change_Q_times current past Hne) as Hx;
    set (x := calc_percentage_change current past) in *;
    repeat split; intros H; nra.
Qed.

(** A loss of 100 that shrinks to 50 is reported as a change of -50. *)
Lemma X14_change_sign_witness :
  (calc_percentage_change (-50) (-100) < 0)%Q.
Proof.
  destruct (X14_change_sign (-50) (-100)) as [_ H].
  destruct H as [_ H]; [reflexivity|].
  apply H. reflexivity.
Defined.

(** X15: on doubles the guard [past == 0] catches the two zeros only: a past
    value that is NaN gives NaN whatever the current value, and so does an
    infinite past value against a finite current value. *)
Theorem X15_change_nan (current : float64) :
  calc_percentage_change current S754_nan = S754_nan
  /\ (is_finite current = true ->
      forall s, calc_percentage_change current (S754_infinity s) = S754_nan)
  /\ (forall s, calc_percentage_change current (S754_zero s) = pzero).
Proof.
  split; [|split].
  - unfold calc_percentage_change. cbn.
    destruct current; reflexivity.
  - intros Hfin s. unfold calc_percentage_change. cbn.
    destruct current as [c| | |c m e]; try discriminate Hfin;
      destruct s; reflexivity.
  - intros s. reflexivity.
Qed.

(** The double 1.0 against an infinite past value. *)
Lemma X15_change_nan_witness :
  calc_percentage_change (of_Z 1) (S754_infinity false) = S754_nan.
Proof.
  destruct (X15_change_nan (of_Z 1)) as (_ & H & _).
  apply H. reflexivity.
Defined.

(** X16: a missing profit or sales cell (NaN) gives a margin rate of 0, and
    so does a profit of 0 whatever the sales (0, infinite or missing
    included). *)
Theorem X16_margin_rate_missing (profit sales : float64) :
  (is_nan profit = true \/ is_nan sales = true ->
   F64.margin_rate profit sales = pzero)
  /\ (feqb profit pzero = true ->
      feqb (F64.margin_rate profit sales) pzero = true).
Proof.
  split.
  - intros [H|H].
    + destruct profit; try discriminate H. reflexivity.
    + destruct sales; try discriminate H. destruct profit; reflexivity.
  - intros H.
    destruct profit as [s|s| |s m e].
    + destruct sales as [s'|s'| |s' m' e']; destruct s; try destruct s';
        reflexivity.
    + destruct s; discriminate H.
    + discriminate H.
    + destruct s; discriminate H.
Qed.

(** A row whose profit cell is empty. *)
Lemma X16_margin_rate_missing_witness :
  F64.margin_rate S754_nan (of_Z 250) = pzero.
Proof.
  destruct (X16_margin_rate_missing S754_nan (of_Z 250)) as [H _].
  apply H. left. reflexivity.
Defined.

(* ================================================================== *)
(** * Further properties of the grouped views *)

Lemma accumulate_sum (name : string) (v : Q) (groups : table) :
  (Qsum (map snd (accumulate name v groups)) == Qsum (map snd groups) + v)%Q.
Proof.
  induction groups as [|[name' acc] rest IH]; cbn [accumulate].
  - cbn [map snd]. rewrite Qsum_cons. ring.
  - destruct (String_as_OT.compare name name'); cbn [map snd];
      rewrite ?Qsum_cons, ?IH; cbn [map snd]; rewrite ?Qsum_cons; ring.
Qed.

Lemma groupby_sum_snoc (key : row -> string) (k : selected_kpi)
      (df : frame) (r : row) :
  groupby_sum key k (df ++ [r])
  = accumulate (key r) (kpi_value k r) (groupby_sum key k df).
Proof. unfold groupby_sum. now rewrite fold_left_app. Qed.

Lemma groupby_sum_total (key : row -> string) (k : selected_kpi) (df : frame) :
  (Qsum (map snd (groupby_sum key k df)) == Qsum (map (kpi_value k) df))%Q.
Proof.
  induction df as [|r df IH] using rev_ind; [reflexivity|].
  rewrite groupby_sum_snoc, accumulate_sum, IH, map_app, Qsum_app.
  cbn [map]. rewrite Qsum_cons. change (Qsum []) with 0%Q. ring.
Qed.

(** X17: grouping loses nothing: the sums of the product table, and those of
    the state table, add up to the sum of the metric over the frame. *)
Theorem X17_groupby_conserves_total (k : selected_kpi) (df : frame) :
  (Qsum (map snd (df_product_sales k df)) == Qsum (map (kpi_value k) df))%Q
  /\ (Qsum (map snd (df_geo k df)) == Qsum (map (kpi_value k) df))%Q.
Proof.
  split.
  - exact (groupby_sum_total product_name k df).
  - exact (groupby_sum_total state k df).
Qed.

(** X18: for any sort that meets the contract, the top-10 table has as many
    rows as the frame has distinct products, up to 10; with 10 products or
    fewer nothing is cut: the table is the whole product table, rearranged. *)
Theorem X18_top10_length (sort_values : table -> table) (k : selected_kpi)
        (df : frame) :
  sorts_descending sort_values ->
  List.length (df_top10 sort_values k df)
  = Nat.min 10 (distinct_products df)
  /\ ((distinct_products df <= 10)%nat ->
      Permutation (df_product_sales k df) (df_top10 sort_values k df)).
Proof.
  intros Hsort. unfold df_top10.
  destruct (Hsort (df_product_sales k df)) as [Hperm _].
  pose proof (df_product_sales_length k df) as Hlen.
  rewrite (Permutation_length Hperm) in Hlen.
  split.
  - now rewrite length_firstn, Hlen.
  - intros Hfew. rewrite firstn_all2; [exact Hperm|lia].
Qed.

(** Three products only. *)
Lemma X18_top10_length_witness :
  List.length (df_top10 stable_sort_desc Sales three_orders) = 3%nat.
Proof.
  destruct (X18_top10_length stable_sort_desc Sales three_orders
              (insertion_sort_sorts true)) as [H _].
  exact H.
Defined.

Lemma fold_left_map_frame {B} (f : B -> row -> B) (g : row -> row)
      (df : frame) (b : B) :
  fold_left f (map g df) b = fold_left (fun acc r => f acc (g r)) df b.
Proof.
  revert b. induction df as [|r df IH]; intros b; cbn; [reflexivity|].
  apply IH.
Qed.

Lemma kpi_value_keyed_by (key : row -> string) (k : selected_kpi) (r : row) :
  kpi_value k (keyed_by key r) = kpi_value k r.
Proof. destruct k; reflexivity. Qed.

(** Grouping by a key is grouping by product name once the key is written
    into that column. *)
Lemma groupby_sum_keyed_by (key : row -> string) (k : selected_kpi)
      (df : frame) :
  groupby_sum key k df = df_product_sales k (map (keyed_by key) df).
Proof.
  unfold groupby_sum, df_product_sales. rewrite fold_left_map_frame.
  reflexivity.
Qed.

Lemma key_total_keyed_by (key : row -> string) (k : selected_kpi)
      (name : string) (df : frame) :
  key_total key k name df = product_total k name (map (keyed_by key) df).
Proof.
  unfold key_total, product_total. f_equal.
  induction df as [|r df IH]; cbn; [reflexivity|].
  destruct (String.eqb (key r) name); cbn; rewrite IH;
    [now rewrite kpi_value_keyed_by|reflexivity].
Qed.

(** X19: the state table has one row for each state of the frame and no
    other, in ascending order of the names, and each row carries the sum of
    the metric over the rows of its state. *)
Theorem X19_df_geo_rows (k : selected_kpi) (df : frame) :
  StronglySorted key_lt (df_geo k df)
  /\ NoDup (map fst (df_geo k df))
  /\ (forall n, In n (map fst (df_geo k df)) <-> In n (map state df))
  /\ (forall n v, In (n, v) (df_geo k df) ->
                  (v == key_total state k n df)%Q).
Proof.
  unfold df_geo. rewrite groupby_sum_keyed_by.
  destruct (df_product_sales_spec k (map (keyed_by state) df))
    as (Hs & Hkeys & Hval).
  split; [exact Hs|]. split; [now apply sorted_NoDup|]. split.
  - intros n. rewrite Hkeys, map_map. reflexivity.
  - intros n v Hin. rewrite key_total_keyed_by. now apply Hval.
Qed.

(** The three sample orders all ship to Ohio. *)
Lemma X19_df_geo_rows_witness :
  (200 == key_total state Sales "Ohio" three_orders)%Q.
Proof.
  destruct (X19_df_geo_rows Sales three_orders) as (_ & _ & _ & H).
  apply H. left. reflexivity.
Defined.

Lemma filter_key_length (n : string) (ref : state_abbr_table) :
  NoDup (map fst ref) ->
  (List.length (filter (fun e => String.eqb (fst e) n) ref) <= 1)%nat.
Proof.
  induction ref as [|e ref IH]; cbn; intros Hnd; [lia|].
  inversion Hnd as [|? ? Hnot Hnd']; subst.
  destruct (String.eqb (fst e) n) eqn:E; [|now apply IH].
  apply String.eqb_eq in E.
  replace (filter (fun e0 => String.eqb (fst e0) n) ref) with (@nil (string * string));
    [cbn; lia|].
  symmetry. clear IH Hnd Hnd'. induction ref as [|e' ref IH]; cbn; [reflexivity|].
  destruct (String.eqb (fst e') n) eqn:E'.
  - exfalso. apply Hnot. left. apply String.eqb_eq in E'. congruence.
  - apply IH. intros H. apply Hnot. now right.
Qed.

(** X20: the left merge with the reference sheet keeps every row of the
    state table: a state is given each code the sheet lists for it, a state
    the sheet does not list is kept with a missing code, and when the sheet
    lists no state twice the merged table is the state table row for row. *)
Theorem X20_merge_left (geo : table) (state_abbr : state_abbr_table) :
  (forall n v c, In (n, v, Some c) (merge_left geo state_abbr)
                 <-> In (n, v) geo /\ In (n, c) state_abbr)
  /\ (forall n v, In (n, v, None) (merge_left geo state_abbr)
                  <-> In (n, v) geo /\ ~ In n (map fst state_abbr))
  /\ (NoDup (map fst state_abbr) ->
      map fst (merge_left geo state_abbr) = geo).
Proof.
  assert (Hf : forall n c, In (n, c) state_abbr
                 <-> In (n, c) (filter (fun e => String.eqb (fst e) n) state_abbr)).
  { intros n c. rewrite filter_In. cbn. rewrite String.eqb_refl. tauto. }
  assert (Hnil : forall n, filter (fun e => String.eqb (fst e) n) state_abbr = []
                           <-> ~ In n (map fst state_abbr)).
  { intros n. split.
    - intros H Hin. apply in_map_iff in Hin. destruct Hin as ([n' c] & Hn & Hin).
      cbn in Hn. subst n'. apply Hf in Hin. rewrite H in Hin. destruct Hin.
    - intros H. destruct (filter _ state_abbr) as [|[n' c] rest] eqn:E;
        [reflexivity|].
      exfalso. apply H.
      assert (Hin : In (n', c) (filter (fun e => String.eqb (fst e) n) state_abbr))
        by (rewrite E; now left).
      apply filter_In in Hin. destruct Hin as [Hin Heq].
      apply String.eqb_eq in Heq. cbn in Heq. subst n'.
      apply in_map_iff. exists (n, c). auto. }
  unfold merge_left. split; [|split].
  - intros n v c. rewrite in_flat_map. split.
    + intros ([n' v'] & Hg & Hin). cbn [fst snd] in Hin.
      destruct (filter (fun e => String.eqb (fst e) n') state_abbr)
        as [|e rest] eqn:E.
      * destruct Hin as [Hin|[]]. discriminate Hin.
      * apply in_map_iff in Hin. destruct Hin as ([n'' c'] & Heq & Hin).
        cbn in Heq. injection Heq as <- <- <-.
        rewrite <- E in Hin. apply filter_In in Hin.
        destruct Hin as [Hin Hk]. apply String.eqb_eq in Hk. cbn in Hk.
        subst n''. auto.
    + intros [Hg Hc]. exists (n, v). split; [exact Hg|]. cbn [fst snd].
      apply Hf in Hc.
      destruct (filter (fun e => String.eqb (fst e) n) state_abbr)
        as [|e rest]; [destruct Hc|].
      apply in_map_iff. exists (n, c). auto.
  - intros n v. rewrite in_flat_map. split.
    + intros ([n' v'] & Hg & Hin). cbn [fst snd] in Hin.
      destruct (filter (fun e => String.eqb (fst e) n') state_abbr)
        as [|e rest] eqn:E.
      * destruct Hin as [Hin|[]]. injection Hin as <- <-.
        split; [exact Hg|]. now apply Hnil.
      * apply in_map_iff in Hin. destruct Hin as (x & Heq & _).
        discriminate Heq.
    + intros [Hg Hno]. exists (n, v). split; [exact Hg|]. cbn [fst snd].
      apply Hnil in Hno. rewrite Hno. now left.
  - intros Hnd. induction geo as [|[n v] geo IH]; [reflexivity|].
    cbn [flat_map]. rewrite map_app, IH. cbn [fst snd].
    pose proof (filter_key_length n state_abbr Hnd) as Hlen.
    destruct (filter (fun e => String.eqb (fst e) n) state_abbr)
      as [|e [|e' rest]]; cbn in Hlen |- *; try reflexivity. lia.
Qed.

(** A reference sheet that lists Ohio once. *)
Lemma X20_merge_left_witness :
  map fst (merge_left (df_geo Sales three_orders)
                      [("Ohio", "OH"); ("Texas", "TX")]%string)
  = df_geo Sales three_orders.
Proof.
  destruct (X20_merge_left (df_geo Sales three_orders)
                           [("Ohio", "OH"); ("Texas", "TX")]%string)
    as (_ & _ & H).
  apply H. cbn. repeat constructor; cbn; intuition discriminate.
Defined.

(* ================================================================== *)
(** * Further properties of the time series *)

Section TimeSeries.

Variable month_of : Z -> Z.
Variable k : selected_kpi.

Lemma month_range_In (m0 m1 m : Z) :
  In m (month_range m0 m1) <-> m0 <= m <= m1.
Proof.
  unfold month_range. rewrite in_map_iff. split.
  - intros (i & <- & Hi). apply in_seq in Hi. lia.
  - intros H. exists (Z.to_nat (m - m0)). split; [lia|].
    apply in_seq. lia.
Qed.

Lemma month_range_sorted (m0 m1 : Z) :
  StronglySorted Z.lt (month_range m0 m1).
Proof.
  unfold month_range. generalize (Z.to_nat (m1 - m0 + 1)) as n.
  generalize 0%nat as s. intros s n. revert s.
  induction n as [|n IH]; intros s; cbn; constructor.
  - apply IH.
  - apply Forall_forall. intros m Hm. apply in_map_iff in Hm.
    destruct Hm as (i & <- & Hi). apply in_seq in Hi. lia.
Qed.

Lemma month_range_NoDup (m0 m1 : Z) : NoDup (month_range m0 m1).
Proof.
  pose proof (month_range_sorted m0 m1) as H.
  induction H as [|m l _ IH Hall]; constructor; [|exact IH].
  intros Hin. rewrite Forall_forall in Hall. specialize (Hall m Hin). lia.
Qed.

Lemma month_total_absent (m : Z) (df : frame) :
  (forall r, In r df -> month_of (order_date r) <> m) ->
  month_total month_of k m df = 0%Q.
Proof.
  intros H. unfold month_total.
  replace (filter (fun r => month_of (order_date r) =? m) df) with (@nil row);
    [reflexivity|].
  symmetry. induction df as [|r df IH]; cbn; [reflexivity|].
  destruct (month_of (order_date r) =? m) eqn:E.
  - apply Z.eqb_eq in E. exfalso. apply (H r); [now left|exact E].
  - apply IH. intros r' Hr'. apply H. now right.
Qed.

(** X21: the time series has one row for every month from the month of the
    earliest order to the month of the latest, each once and in increasing
    order; a month in which the frame has no order is there too, with sum 0;
    on an empty frame the series is empty. *)
Theorem X21_df_time_months (df : frame) :
  StronglySorted Z.lt (map fst (df_time month_of k df))
  /\ (forall lo hi, order_date_min df = Some lo -> order_date_max df = Some hi ->
                    forall m, In m (map fst (df_time month_of k df))
                              <-> month_of lo <= m <= month_of hi)
  /\ (forall m v, In (m, v) (df_time month_of k df) ->
                  v = month_total month_of k m df
                  /\ ((forall r, In r df -> month_of (order_date r) <> m) ->
                      v = 0%Q))
  /\ df_time month_of k [] = [].
Proof.
  unfold df_time.
  destruct (order_date_min df) as [lo|] eqn:Hlo;
    destruct (order_date_max df) as [hi|] eqn:Hhi;
    try (split; [constructor|]; split; [discriminate|];
         split; [intros m v []|reflexivity]).
  rewrite map_map. cbn [fst]. rewrite map_id.
  split; [apply month_range_sorted|]. split; [|split; [|reflexivity]].
  - intros lo' hi' [= <-] [= <-] m. apply month_range_In.
  - intros m v Hin. apply in_map_iff in Hin.
    destruct Hin as (m' & [= <- <-] & _).
    split; [reflexivity|]. apply month_total_absent.
Qed.

Lemma Qsum_map_plus {A} (f g : A -> Q) (l : list A) :
  (Qsum (map (fun x => f x + g x) l) == Qsum (map f l) + Qsum (map g l))%Q.
Proof.
  induction l as [|x l IH]; cbn [map]; [reflexivity|].
  rewrite !Qsum_cons, IH. ring.
Qed.

Lemma Qsum_map_ext {A} (f g : A -> Q) (l : list A) :
  (forall x, In x l -> (f x == g x)%Q) ->
  (Qsum (map f l) == Qsum (map g l))%Q.
Proof.
  induction l as [|x l IH]; cbn [map]; intros H; [reflexivity|].
  rewrite !Qsum_cons, (H x (or_introl eq_refl)), IH; [reflexivity|].
  intros y Hy. apply H. now right.
Qed.

Lemma Qsum_indicator (a : Z) (x : Q) (months : list Z) :
  NoDup months ->
  (Qsum (map (fun m => if a =? m then x else 0) months)
   == if existsb (Z.eqb a) months then x else 0)%Q.
Proof.
  induction 1 as [|m l Hnot _ IH]; cbn [map existsb]; [reflexivity|].
  rewrite Qsum_cons, IH.
  destruct (a =? m) eqn:E; cbn [orb]; [|ring].
  apply Z.eqb_eq in E. subst m.
  destruct (existsb (Z.eqb a) l) eqn:Ex; [|ring].
  apply existsb_exists in Ex. destruct Ex as (y & Hy & Heq).
  apply Z.eqb_eq in Heq. subst y. contradiction.
Qed.

Lemma month_total_cons (m : Z) (r : row) (df : frame) :
  (month_total month_of k m (r :: df)
   == (if month_of (order_date r) =? m then kpi_value k r else 0)
      + month_total month_of k m df)%Q.
Proof.
  unfold month_total. cbn [filter].
  destruct (month_of (order_date r) =? m); cbn [map];
    rewrite ?Qsum_cons; ring.
Qed.

Lemma month_totals_sum (months : list Z) (df : frame) :
  NoDup months ->
  (forall r, In r df -> In (month_of (order_date r)) months) ->
  (Qsum (map (fun m => month_total month_of k m df) months)
   == Qsum (map (kpi_value k) df))%Q.
Proof.
  intros Hnd. induction df as [|r df IH]; intros Hall.
  - cbn [map]. change (Qsum []) with 0%Q. clear.
    induction months as [|m l IHl]; cbn [map]; [reflexivity|].
    rewrite Qsum_cons, IHl.
    unfold month_total. cbn [filter map]. change (Qsum []) with 0%Q. ring.
  - rewrite (Qsum_map_ext _ _ months (fun m _ => month_total_cons m r df)).
    rewrite Qsum_map_plus, (Qsum_indicator _ _ _ Hnd), IH.
    + assert (E : existsb (Z.eqb (month_of (order_date r))) months = true).
      { apply existsb_exists. exists (month_of (order_date r)).
        split; [apply Hall; now left|apply Z.eqb_refl]. }
      rewrite E. cbn [map]. rewrite Qsum_cons. reflexivity.
    + intros r' Hr'. apply Hall. now right.
Qed.

(** X22: when the calendar numbers later days with later (or equal) months,
    the monthly sums add up to the sum of the metric over the frame: every
    order falls in exactly one row of the series. *)
Theorem X22_df_time_conserves_total (df : frame) :
  (forall d d', d <= d' -> month_of d <= month_of d') ->
  (Qsum (map snd (df_time month_of k df)) == Qsum (map (kpi_value k) df))%Q.
Proof.
  intros Hmono. unfold df_time.
  destruct df as [|r0 rest]; [reflexivity|].
  destruct (order_date_min_defined (r0 :: rest)) as (lo & hi & Hlo & Hhi);
    [discriminate|].
  rewrite Hlo, Hhi, map_map. cbn [snd].
  apply month_totals_sum; [apply month_range_NoDup|].
  intros r Hr. apply month_range_In.
  pose proof (order_date_min_le _ _ _ Hlo Hr).
  pose proof (order_date_max_ge _ _ _ Hhi Hr).
  split; apply Hmono; assumption.
Qed.

End TimeSeries.

(** Orders on days 1, 5, 9 and 100 under thirty-day months: months 0 to 3,
    the two in between without orders. *)
Lemma X21_df_time_months_witness :
  In 2 (map fst (df_time thirty_day_month Sales
                         (sample_row "CA-4" 100 "East" "Desk" 5 1
                                     :: three_orders))).
Proof.
  destruct (X21_df_time_months thirty_day_month Sales
              (sample_row "CA-4" 100 "East" "Desk" 5 1 :: three_orders))
    as (_ & H & _).
  apply (H 1 100 eq_refl eq_refl). cbn. lia.
Defined.

(** Three orders in the first thirty days. *)
Lemma X22_df_time_conserves_total_witness :
  (Qsum (map snd (df_time thirty_day_month Sales three_orders))
   == Qsum (map (kpi_value Sales) three_orders))%Q.
Proof.
  apply X22_df_time_conserves_total.
  intros d d' H. unfold thirty_day_month.
  apply Z.div_le_mono; lia.
Defined.

Lemma rolling_mean3_length (a b : option Q) (col : list Q) :
  List.length (rolling_mean3 a b col) = List.length col.
Proof.
  revert a b. induction col as [|x col IH]; intros a b; cbn; [reflexivity|].
  now rewrite IH.
Qed.

Lemma rolling_mean3_window (a b : option Q) (col : list Q) (i : nat)
      (x y z : Q) :
  nth_error col i = Some x ->
  nth_error col (S i) = Some y ->
  nth_error col (S (S i)) = Some z ->
  nth_error (rolling_mean3 a b col) (S (S i)) = Some (Some ((x + y + z) / 3)%Q).
Proof.
  revert a b col. induction i as [|i IH]; intros a b col Hx Hy Hz.
  - destruct col as [|x' [|y' [|z' col]]]; try discriminate.
    cbn in Hx, Hy, Hz. injection Hx as ->. injection Hy as ->.
    injection Hz as ->. reflexivity.
  - destruct col as [|x' col]; [discriminate|].
    cbn [rolling_mean3 nth_error]. now apply IH.
Qed.

(** X23: the moving average has a value for every row of the time series;
    it is missing on the first two rows and, from the third row on, it is
    the mean of the sums of the row and of the two rows before it. *)
Theorem X23_moving_avg (month_of : Z -> Z) (k : selected_kpi) (df : frame) :
  let series := map snd (df_time month_of k df) in
  let avg := moving_avg month_of k df in
  List.length avg = List.length series
  /\ (forall i, (i < 2)%nat -> (i < List.length series)%nat ->
                nth_error avg i = Some None)
  /\ (forall i x y z,
         nth_error series i = Some x ->
         nth_error series (S i) = Some y ->
         nth_error series (S (S i)) = Some z ->
         nth_error avg (S (S i)) = Some (Some ((x + y + z) / 3)%Q)).
Proof.
  cbv zeta. unfold moving_avg.
  set (series := map snd (df_time month_of k df)).
  split; [apply rolling_mean3_length|]. split.
  - intros i Hi Hlen.
    destruct series as [|x [|y rest]]; cbn in Hlen;
      destruct i as [|[|i]]; try lia; reflexivity.
  - intros i x y z. apply rolling_mean3_window.
Qed.

(** The first month of a series has no moving average. *)
Lemma X23_moving_avg_witness :
  nth_error (moving_avg thirty_day_month Sales
                        (sample_row "CA-4" 100 "East" "Desk" 5 1
                                    :: three_orders)) 0
  = Some None.
Proof.
  destruct (X23_moving_avg thirty_day_month Sales
              (sample_row "CA-4" 100 "East" "Desk" 5 1 :: three_orders))
    as (_ & H & _).
  apply H; [lia|vm_compute; lia].
Defined.

(* ================================================================== *)
(** * Further properties of the KPI boxes *)

Lemma Qfloor_unique (q : Q) (n : Z) :
  (inject_Z n <= q)%Q -> (q < inject_Z n + 1)%Q -> Qfloor q = n.
Proof.
  intros Hlo Hhi.
  pose proof (Qfloor_le q) as H1. pose proof (Qlt_floor q) as H2.
  rewrite inject_Z_plus in H2.
  assert (Ha : (inject_Z (Qfloor q) < inject_Z (n + 1))%Q).
  { rewrite inject_Z_plus. eapply Qle_lt_trans; eassumption. }
  assert (Hb : (inject_Z n < inject_Z (Qfloor q + 1))%Q).
  { rewrite inject_Z_plus. eapply Qle_lt_trans; eassumption. }
  rewrite <- Zlt_Qlt in Ha, Hb. lia.
Qed.

Lemma round_half_even_down (q : Q) (n : Z) :
  (inject_Z n <= q)%Q -> (q < inject_Z n + (1 # 2))%Q ->
  round_half_even q = n.
Proof.
  intros Hlo Hhi. unfold round_half_even.
  rewrite (Qfloor_unique q n) by (try assumption; lra).
  assert (H : ((q - inject_Z n ?= 1 # 2) = Lt)%Q)
    by (apply (proj1 (Qlt_alt _ _)); lra).
  now rewrite H.
Qed.


Lemma Qltb_false (x y : Q) : (y <= x)%Q -> Qltb x y = false.
Proof.
  intros H. unfold Qltb. apply Qle_bool_iff in H. now rewrite H.
Qed.



(** The text of a value that one decimal rounds down to nothing. *)
Lemma fixed_nothing (q : Q) :
  (0 <= q)%Q -> (q < 1 # 20)%Q -> fixed 1 q = "0.0"%string.
Proof.
  intros Hlo Hhi. unfold fixed.
  assert (Habs : (Qabs q == q)%Q) by (apply Qabs_pos; lra).
  assert (Hr : round_half_even (Qabs q * inject_Z (10 ^ Z.of_nat 1)) = 0).
  { change (inject_Z (10 ^ Z.of_nat 1)) with (inject_Z 10).
    apply (round_half_even_down _ 0).
    - rewrite Habs. change (inject_Z 0) with 0%Q.
      change (inject_Z 10) with (10 # 1)%Q. lra.
    - rewrite Habs. change (inject_Z 0) with 0%Q.
      change (inject_Z 10) with (10 # 1)%Q. lra. }
  rewrite Hr, Qltb_false by lra. reflexivity.
Qed.



(** X25: only a change of exactly 0 is shown neutral.  A change that is not
    0 but rounds to 0.0 is still shown with its arrow and colour: green and
    up when positive, red and down when negative. *)
Theorem X25_format_change_small (value : Q) :
  ((value == 0)%Q ->
   format_change value
   = "<span style='color:gray; font-weight:bold;'>➖ 0.0%</span>"%string)
  /\ ((0 < value)%Q -> (value < 1 # 20)%Q ->
      format_change value
      = "<span style='color:green; font-weight:bold;'> ▲ 0.0%</span>"%string)
  /\ ((value < 0)%Q -> (- (1 # 20) < value)%Q ->
      format_change value
      = "<span style='color:red; font-weight:bold;'> ▼ 0.0%</span>"%string).
Proof.
  unfold format_change. split; [|split].
  - intros H. apply Qeq_bool_iff in H. now rewrite H.
  - intros Hlo Hhi.
    assert (E : Qeq_bool value 0 = false).
    { destruct (Qeq_bool value 0) eqn:E; [|reflexivity].
      apply Qeq_bool_iff in E. lra. }
    assert (Habs : (Qabs value == value)%Q) by (apply Qabs_pos; lra).
    rewrite E, (proj2 (Qltb_true 0 value) Hlo).
    rewrite fixed_nothing; [reflexivity| |].
    + apply Qabs_nonneg.
    + rewrite Habs. exact Hhi.
  - intros Hhi Hlo.
    assert (E : Qeq_bool value 0 = false).
    { destruct (Qeq_bool value 0) eqn:E; [|reflexivity].
      apply Qeq_bool_iff in E. lra. }
    assert (Habs : (Qabs value == - value)%Q) by (apply Qabs_neg; lra).
    rewrite E, (Qltb_false 0 value) by lra.
    rewrite fixed_nothing; [reflexivity| |].
    + apply Qabs_nonneg.
    + rewrite Habs. lra.
Qed.

(** A rise of four hundredths of a percent. *)
Lemma X25_format_change_small_witness :
  format_change (4 # 100)
  = "<span style='color:green; font-weight:bold;'> ▲ 0.0%</span>"%string.
Proof.
  destruct (X25_format_change_small (4 # 100)) as (_ & H & _).
  apply H; reflexivity.
Defined.
